(** * Two models of the bank transaction system (src/app.py)

    The program keeps two SQLite tables, [accounts] and [transactions], and
    mutates them through the methods of [BankSystem]; the FastAPI endpoints
    validate a request, call one method and shape the answer.

    The embedding is state passing: a [Database] value is the content of the
    two tables, every method takes the database and returns its Python result
    together with the tables it leaves behind.  A SELECT is a [filter] or a
    [find] over the rows, an UPDATE a [map], an INSERT an append.  The value
    of SQLite's CURRENT_TIMESTAMP is an extra argument [now] of every method
    that inserts a row.

    Money is embedded twice.

    - The ledger model, first in the file, counts amounts as exact integers
      ([Z]) of hundredths, so 1000.00 is [100000].  It carries the
      statements that do not depend on how a sum is rounded: the invariants
      of the tables over every sequence of calls, what a refused call
      leaves behind, and which rows a call writes.

    - The module [Float64] embeds the methods and the money-moving
      endpoints on IEEE 754 binary64 numbers, which is what Python's
      [float] and SQLite's REAL are.  It carries the statements about the
      balance a call writes.  It has the failures of a statement that the
      ledger model leaves out: a NaN is refused by the NOT NULL columns,
      and a limit beyond 64 bits is refused when it is bound.

    Neither model has the locks of concurrent connections, or of a
    connection that a method left open when a statement raised.  A lock
    makes a write fail without changing a table, so what is stated of a
    write is stated of the call that returned [True], of the call that
    returned [False], or of every sequence of calls. *)

From Stdlib Require Import ZArith List String Bool Lia Permutation Sorted.
From Stdlib Require Import Floats.
Import ListNotations.

Local Open Scope string_scope.
Local Open Scope Z_scope.

(** ** Schema *)

(** A row of [accounts]:
    account_id INTEGER PRIMARY KEY AUTOINCREMENT,
    account_number TEXT UNIQUE NOT NULL, account_holder TEXT NOT NULL,
    balance DECIMAL(15,2) NOT NULL DEFAULT 0.00,
    created_at TIMESTAMP DEFAULT CURRENT_TIMESTAMP. *)
Module Account.
Record t : Type := mk
  { account_id : Z
  ; account_number : string
  ; account_holder : string
  ; balance : Z
  ; created_at : Z }.

Definition set_balance (new_balance : Z) (r : t) : t :=
  mk (account_id r) (account_number r) (account_holder r) new_balance
     (created_at r).
End Account.

(** A row of [transactions]; [from_account], [to_account] and [description]
    are nullable columns. *)
Module Transaction.
Record t : Type := mk
  { transaction_id : Z
  ; from_account : option string
  ; to_account : option string
  ; transaction_type : string
  ; amount : Z
  ; description : option string
  ; timestamp : Z }.
End Transaction.

Record Database : Type := mkDatabase
  { accounts : list Account.t
  ; transactions : list Transaction.t }.

(** The state right after [create_tables] on a fresh file. *)
Definition empty_database : Database := mkDatabase [] [].

(** ** The SQL statements of [BankSystem] *)

(** [WHERE account_number = ?] *)
Definition has_number (number : string) (r : Account.t) : bool :=
  String.eqb (Account.account_number r) number.

(** [SELECT balance FROM accounts WHERE account_number = ?], then
    [fetchone]: the first matching row, or [None]. *)
Definition select_balance (db : Database) (number : string) : option Z :=
  option_map Account.balance (find (has_number number) (accounts db)).

(** [UPDATE accounts SET balance = <f balance> WHERE account_number = ?]:
    every matching row is rewritten, the others are kept, order is kept. *)
Definition update_balance (f : Z -> Z) (number : string) (db : Database)
  : Database :=
  mkDatabase
    (map (fun r => if has_number number r
                   then Account.set_balance (f (Account.balance r)) r
                   else r)
         (accounts db))
    (transactions db).

(** AUTOINCREMENT: rows are never deleted, so the next key is the row count
    plus one. *)
Definition next_id {A : Type} (rows : list A) : Z :=
  Z.of_nat (List.length rows) + 1.

(** [INSERT INTO transactions (from_account, to_account, transaction_type,
    amount, description) VALUES ...]; a column left out of the INSERT is
    NULL, [timestamp] takes its default. *)
Definition insert_transaction (now : Z) (from_account to_account : option string)
    (transaction_type : string) (amount : Z) (description : option string)
    (db : Database) : Database :=
  mkDatabase
    (accounts db)
    (transactions db ++
       [Transaction.mk (next_id (transactions db)) from_account to_account
          transaction_type amount description now]).

(** [{acc[0]: float(acc[1]) for acc in accounts}] followed by a subscript:
    a later pair overrides an earlier one with the same key, and a missing
    key raises [KeyError]. *)
Definition dict_get (key : string) (items : list (string * Z)) : option Z :=
  option_map snd (find (fun kv => String.eqb (fst kv) key) (rev items)).

(** ** class BankSystem *)

Module BankSystem.

(** [create_account]: the INSERT raises [sqlite3.IntegrityError] when the
    UNIQUE constraint on [account_number] is violated, and the method then
    returns [False]. *)
Definition create_account (db : Database) (now : Z)
    (account_number account_holder : string) (initial_balance : Z)
  : bool * Database :=
  if existsb (has_number account_number) (accounts db)
  then (false, db)
  else (true,
        mkDatabase
          (accounts db ++
             [Account.mk (next_id (accounts db)) account_number account_holder
                initial_balance now])
          (transactions db)).

(** [get_account]: the selected columns of the first matching row. *)
Definition get_account (db : Database) (account_number : string)
  : option (string * string * Z * Z) :=
  option_map
    (fun r => (Account.account_number r, Account.account_holder r,
               Account.balance r, Account.created_at r))
    (find (has_number account_number) (accounts db)).

Definition get_all_accounts (db : Database)
  : list (string * string * Z * Z) :=
  map (fun r => (Account.account_number r, Account.account_holder r,
                 Account.balance r, Account.created_at r))
      (accounts db).

Definition deposit (db : Database) (now : Z) (account_number : string)
    (amount : Z) (description : option string) : bool * Database :=
  match select_balance db account_number with
  | None => (false, db)
  | Some current_balance =>
      let new_balance := current_balance + amount in
      let db1 := update_balance (fun _ => new_balance) account_number db in
      let db2 := insert_transaction now None (Some account_number)
                   "DEPOSIT" amount description db1 in
      (true, db2)
  end.

Definition withdraw (db : Database) (now : Z) (account_number : string)
    (amount : Z) (description : option string) : bool * Database :=
  match select_balance db account_number with
  | None => (false, db)
  | Some current_balance =>
      if current_balance <? amount then (false, db)
      else
        let new_balance := current_balance - amount in
        let db1 := update_balance (fun _ => new_balance) account_number db in
        let db2 := insert_transaction now (Some account_number) None
                     "WITHDRAWAL" amount description db1 in
        (true, db2)
  end.

(** [transfer].  [selected] is the list the method calls [accounts], the
    rows of [SELECT ... WHERE account_number IN (?, ?)].  Every path that
    returns [False] has written nothing: the two explicit ROLLBACKs, and
    the [KeyError] caught by [except Exception] before the first UPDATE. *)
Definition transfer (db : Database) (now : Z) (from_account to_account : string)
    (amount : Z) (description : option string) : bool * Database :=
  let selected :=
    filter (fun r => has_number from_account r || has_number to_account r)
           (accounts db) in
  if negb (List.length selected =? 2)%nat then (false, db)
  else
    let account_balances :=
      map (fun acc => (Account.account_number acc, Account.balance acc))
          selected in
    match dict_get from_account account_balances with
    | None => (false, db)
    | Some from_balance =>
        if from_balance <? amount then (false, db)
        else
          let db1 := update_balance (fun b => b - amount) from_account db in
          let db2 := update_balance (fun b => b + amount) to_account db1 in
          let db3 := insert_transaction now (Some from_account)
                       (Some to_account) "TRANSFER" amount description db2 in
          (true, db3)
    end.

(** [column = ?] on a nullable column: a NULL never compares equal. *)
Definition column_is (column : option string) (value : string) : bool :=
  match column with
  | Some c => String.eqb c value
  | None => false
  end.

(** [WHERE from_account = ? OR to_account = ?] *)
Definition involves (account_number : string) (t : Transaction.t) : bool :=
  column_is (Transaction.from_account t) account_number
  || column_is (Transaction.to_account t) account_number.

(** [ORDER BY timestamp DESC], as an insertion sort; rows with the same
    timestamp stay in table order, which SQL leaves open. *)
Fixpoint insert_desc (t : Transaction.t) (sorted : list Transaction.t)
  : list Transaction.t :=
  match sorted with
  | [] => [t]
  | u :: rest =>
      if Transaction.timestamp u <=? Transaction.timestamp t
      then t :: u :: rest
      else u :: insert_desc t rest
  end.

Definition order_by_timestamp_desc (rows : list Transaction.t)
  : list Transaction.t :=
  fold_right insert_desc [] rows.

(** [LIMIT ?]: SQLite puts no upper bound on the rows when the value is
    negative. *)
Definition sql_limit {A : Type} (limit : Z) (rows : list A) : list A :=
  if limit <? 0 then rows else firstn (Z.to_nat limit) rows.

(** The columns selected by [get_transaction_history], in order:
    transaction_type, amount, from_account, to_account, description,
    timestamp. *)
Definition HistoryRow : Type :=
  (string * Z * option string * option string * option string * Z)%type.

Definition history_columns (t : Transaction.t) : HistoryRow :=
  (Transaction.transaction_type t, Transaction.amount t,
   Transaction.from_account t, Transaction.to_account t,
   Transaction.description t, Transaction.timestamp t).

Definition get_transaction_history (db : Database) (account_number : string)
    (limit : Z) : list HistoryRow :=
  map history_columns
    (sql_limit limit
       (order_by_timestamp_desc
          (filter (involves account_number) (transactions db)))).

End BankSystem.

(** ** The request models and the endpoints *)

(** FastAPI checks a request body against its pydantic model before the
    endpoint runs and answers 422 when a [Field] bound fails; [valid] is
    that bound. *)
Module CreateAccountRequest.
Record t : Type := mk
  { account_number : string
  ; account_holder : string
  ; initial_balance : Z }.

(** [Field(0.0, ge=0)] *)
Definition valid (request : t) : bool := 0 <=? initial_balance request.
End CreateAccountRequest.

Module DepositWithdrawRequest.
Record t : Type := mk
  { amount : Z
  ; description : option string }.

(** [Field(..., gt=0)] *)
Definition valid (request : t) : bool := 0 <? amount request.
End DepositWithdrawRequest.

Module TransferRequest.
Record t : Type := mk
  { from_account : string
  ; to_account : string
  ; amount : Z
  ; description : option string }.

(** [Field(..., gt=0)] *)
Definition valid (request : t) : bool := 0 <? amount request.
End TransferRequest.

(** The [detail] of an [HTTPException].  The two insufficient-funds messages
    embed the balance the endpoint read before it called the engine. *)
Inductive Detail : Type :=
| AccountNumberAlreadyExists
| AccountNotFound
| SourceAccountNotFound (account_number : string)
| DestinationAccountNotFound (account_number : string)
| SameAccountTransfer
| InsufficientFunds (current_balance : Z)
| InsufficientFundsInSource (current_balance : Z)
| DepositFailed
| WithdrawalFailed
| TransferFailed
| ValidationError.

(** What an endpoint answers: the fields of its success dictionary, or the
    exception it raises.  [InternalServerError] stands for an uncaught
    Python exception (subscripting [None]). *)
Inductive Response : Type :=
| AccountCreated (account_number : string)
| Deposited (amount new_balance : Z)
| Withdrew (amount new_balance : Z)
| Transferred (amount : Z) (from_account to_account : string)
    (from_account_balance to_account_balance : Z)
| Transactions (rows : list (string * Z * option string * option string
                             * string * Z))
| Balance (account_number : string) (balance : Z)
| HTTPException (status_code : Z) (detail : Detail)
| InternalServerError.

(** [account[2]] *)
Definition balance_column (account : string * string * Z * Z) : Z :=
  snd (fst account).

(** [request.description or default]: [None] and the empty string are
    falsy. *)
Definition description_or (description : option string) (default : string)
  : option string :=
  match description with
  | None => Some default
  | Some d => if String.eqb d "" then Some default else Some d
  end.

Definition create_account (bank : Database) (now : Z)
    (request : CreateAccountRequest.t) : Response * Database :=
  if negb (CreateAccountRequest.valid request)
  then (HTTPException 422 ValidationError, bank)
  else
    let (success, bank') :=
      BankSystem.create_account bank now
        (CreateAccountRequest.account_number request)
        (CreateAccountRequest.account_holder request)
        (CreateAccountRequest.initial_balance request) in
    if success
    then (AccountCreated (CreateAccountRequest.account_number request), bank')
    else (HTTPException 400 AccountNumberAlreadyExists, bank').

Definition deposit (bank : Database) (now : Z) (account_number : string)
    (request : DepositWithdrawRequest.t) : Response * Database :=
  if negb (DepositWithdrawRequest.valid request)
  then (HTTPException 422 ValidationError, bank)
  else
    match BankSystem.get_account bank account_number with
    | None => (HTTPException 404 AccountNotFound, bank)
    | Some account =>
        let (success, bank') :=
          BankSystem.deposit bank now account_number
            (DepositWithdrawRequest.amount request)
            (description_or (DepositWithdrawRequest.description request)
               "Deposit") in
        if success
        then
          match BankSystem.get_account bank' account_number with
          | Some updated_account =>
              (Deposited (DepositWithdrawRequest.amount request)
                 (balance_column updated_account), bank')
          | None => (InternalServerError, bank')
          end
        else (HTTPException 400 DepositFailed, bank')
    end.

Definition withdraw (bank : Database) (now : Z) (account_number : string)
    (request : DepositWithdrawRequest.t) : Response * Database :=
  if negb (DepositWithdrawRequest.valid request)
  then (HTTPException 422 ValidationError, bank)
  else
    match BankSystem.get_account bank account_number with
    | None => (HTTPException 404 AccountNotFound, bank)
    | Some account =>
        let (success, bank') :=
          BankSystem.withdraw bank now account_number
            (DepositWithdrawRequest.amount request)
            (description_or (DepositWithdrawRequest.description request)
               "Withdrawal") in
        if success
        then
          match BankSystem.get_account bank' account_number with
          | Some updated_account =>
              (Withdrew (DepositWithdrawRequest.amount request)
                 (balance_column updated_account), bank')
          | None => (InternalServerError, bank')
          end
        else
          let current_balance := balance_column account in
          if current_balance <? DepositWithdrawRequest.amount request
          then (HTTPException 400 (InsufficientFunds current_balance), bank')
          else (HTTPException 400 WithdrawalFailed, bank')
    end.

Definition transfer (bank : Database) (now : Z) (request : TransferRequest.t)
  : Response * Database :=
  let source := TransferRequest.from_account request in
  let destination := TransferRequest.to_account request in
  if negb (TransferRequest.valid request)
  then (HTTPException 422 ValidationError, bank)
  else if String.eqb source destination
  then (HTTPException 400 SameAccountTransfer, bank)
  else
    match BankSystem.get_account bank source,
          BankSystem.get_account bank destination with
    | None, _ => (HTTPException 404 (SourceAccountNotFound source), bank)
    | Some _, None =>
        (HTTPException 404 (DestinationAccountNotFound destination), bank)
    | Some from_account, Some to_account =>
        let (success, bank') :=
          BankSystem.transfer bank now source destination
            (TransferRequest.amount request)
            (TransferRequest.description request) in
        if success
        then
          match BankSystem.get_account bank' source,
                BankSystem.get_account bank' destination with
          | Some updated_from, Some updated_to =>
              (Transferred (TransferRequest.amount request) source destination
                 (balance_column updated_from) (balance_column updated_to),
               bank')
          | _, _ => (InternalServerError, bank')
          end
        else
          let current_balance := balance_column from_account in
          if current_balance <? TransferRequest.amount request
          then (HTTPException 400 (InsufficientFundsInSource current_balance),
                bank')
          else (HTTPException 400 TransferFailed, bank')
    end.

Definition get_transaction_history (bank : Database) (account_number : string)
    (limit : Z) : Response :=
  match BankSystem.get_account bank account_number with
  | None => HTTPException 404 AccountNotFound
  | Some account =>
      Transactions
        (map (fun trans : BankSystem.HistoryRow =>
                let '(transaction_type, amount, from_account, to_account,
                      description, timestamp) := trans in
                (transaction_type, amount, from_account, to_account,
                 match description with Some d => d | None => "" end,
                 timestamp))
             (BankSystem.get_transaction_history bank account_number limit))
  end.

Definition get_balance (bank : Database) (account_number : string) : Response :=
  match BankSystem.get_account bank account_number with
  | Some account => Balance account_number (balance_column account)
  | None => HTTPException 404 AccountNotFound
  end.

(** ** Sequences of calls *)

(** One call of a mutating [BankSystem] method. *)
Inductive Call : Type :=
| CreateAccount (account_number account_holder : string) (initial_balance : Z)
| Deposit (account_number : string) (amount : Z) (description : option string)
| Withdraw (account_number : string) (amount : Z) (description : option string)
| Transfer (from_account to_account : string) (amount : Z)
    (description : option string).

Definition call (db : Database) (now : Z) (c : Call) : bool * Database :=
  match c with
  | CreateAccount n h b => BankSystem.create_account db now n h b
  | Deposit n a d => BankSystem.deposit db now n a d
  | Withdraw n a d => BankSystem.withdraw db now n a d
  | Transfer f t a d => BankSystem.transfer db now f t a d
  end.

(** The calls of a sequence, each at its own clock reading, whatever each
    one returns. *)
Fixpoint run (db : Database) (calls : list (Z * Call)) : Database :=
  match calls with
  | [] => db
  | (now, c) :: rest => run (snd (call db now c)) rest
  end.

(** The bounds on the numeric argument: [amount > 0] and
    [initial_balance >= 0], the [Field(..., gt=0)] and [Field(0.0, ge=0)]
    of the request models.  The methods themselves do not check them. *)
Definition in_bounds (c : Call) : Prop :=
  match c with
  | CreateAccount _ _ b => 0 <= b
  | Deposit _ a _ | Withdraw _ a _ | Transfer _ _ a _ => 0 < a
  end.

(** One request to a mutating endpoint. *)
Inductive Request : Type :=
| PostAccounts (request : CreateAccountRequest.t)
| PostDeposit (account_number : string) (request : DepositWithdrawRequest.t)
| PostWithdraw (account_number : string) (request : DepositWithdrawRequest.t)
| PostTransfer (request : TransferRequest.t).

Definition serve (bank : Database) (now : Z) (r : Request)
  : Response * Database :=
  match r with
  | PostAccounts request => create_account bank now request
  | PostDeposit n request => deposit bank now n request
  | PostWithdraw n request => withdraw bank now n request
  | PostTransfer request => transfer bank now request
  end.

Fixpoint serve_all (bank : Database) (requests : list (Z * Request))
  : Database :=
  match requests with
  | [] => bank
  | (now, r) :: rest => serve_all (snd (serve bank now r)) rest
  end.

(** ** Observations and invariants *)

Definition account_numbers (db : Database) : list string :=
  map Account.account_number (accounts db).

(** The sum of all account balances. *)
Definition total_balance (db : Database) : Z :=
  fold_right Z.add 0 (map Account.balance (accounts db)).

(** The UNIQUE constraint on [accounts.account_number]; [create_account]
    is the only method that adds a row, and it keeps it. *)
Definition unique_numbers (db : Database) : Prop :=
  NoDup (account_numbers db).

(** A non-NULL account column of a transaction names a row of [accounts]. *)
Definition names_account (db : Database) (column : option string) : Prop :=
  match column with
  | Some n => In n (account_numbers db)
  | None => True
  end.

Definition references_hold (db : Database) : Prop :=
  Forall (fun t => names_account db (Transaction.from_account t)
                   /\ names_account db (Transaction.to_account t))
         (transactions db).

Definition consistent (db : Database) : Prop :=
  unique_numbers db /\ references_hold db.


(** The fixture of the test suite and of the specification's scenarios:
    ACC001 holds 1000.00 and ACC002 holds 500.00. *)
Definition fixture : Database :=
  run empty_database
    [ (0, CreateAccount "ACC001" "John Doe" 100000)
    ; (0, CreateAccount "ACC002" "Jane Smith" 50000) ].

(** The database a successful [transfer] commits. *)
Definition after_transfer (db : Database) (now : Z) (f t : string) (a : Z)
    (d : option string) : Database :=
  insert_transaction now (Some f) (Some t) "TRANSFER" a d
    (update_balance (fun b => b + a) t
       (update_balance (fun b => b - a) f db)).

(** A database with four transactions, three of them on ACC001. *)
Definition busy : Database :=
  run fixture
    [ (5, Deposit "ACC001" 20000 (Some "Test deposit"))
    ; (7, Withdraw "ACC001" 10000 (Some "Test withdrawal"))
    ; (6, Transfer "ACC001" "ACC002" 15000 (Some "Test transfer"))
    ; (8, Deposit "ACC002" 100 None) ].

(** ** The read endpoints *)

(** The response model [AccountResponse]. *)
Module AccountResponse.
Record t : Type := mk
  { account_number : string
  ; account_holder : string
  ; balance : Z
  ; created_at : Z }.
End AccountResponse.

(** What a read endpoint answers: its body, or the exception it raises. *)
Inductive Reply (A : Type) : Type :=
| Body (body : A)
| Raised (status_code : Z) (detail : Detail).

Arguments Body {A} body.
Arguments Raised {A} status_code detail.

(** [AccountResponse(account_number=account[0], account_holder=account[1],
    balance=float(account[2]), created_at=account[3])] *)
Definition account_response (account : string * string * Z * Z)
  : AccountResponse.t :=
  let '(account_number, account_holder, balance, created_at) := account in
  AccountResponse.mk account_number account_holder balance created_at.

Definition get_account (bank : Database) (account_number : string)
  : Reply AccountResponse.t :=
  match BankSystem.get_account bank account_number with
  | Some account => Body (account_response account)
  | None => Raised 404 AccountNotFound
  end.

Definition get_all_accounts (bank : Database) : list AccountResponse.t :=
  map account_response (BankSystem.get_all_accounts bank).

(** ** More observations *)

(** What a row of the log says about the sum of all balances: a deposit
    brings its amount in, a withdrawal takes it out, a transfer is
    neutral. *)
Definition signed_amount (t : Transaction.t) : Z :=
  if String.eqb (Transaction.transaction_type t) "DEPOSIT"
  then Transaction.amount t
  else if String.eqb (Transaction.transaction_type t) "WITHDRAWAL"
       then - Transaction.amount t
       else 0.

(** The three shapes of row the methods insert. *)
Definition well_formed_row (t : Transaction.t) : Prop :=
  (Transaction.transaction_type t = "DEPOSIT"
   /\ Transaction.from_account t = None
   /\ exists n, Transaction.to_account t = Some n)
  \/ (Transaction.transaction_type t = "WITHDRAWAL"
      /\ Transaction.to_account t = None
      /\ exists n, Transaction.from_account t = Some n)
  \/ (Transaction.transaction_type t = "TRANSFER"
      /\ exists f u,
           Transaction.from_account t = Some f
           /\ Transaction.to_account t = Some u
           /\ f <> u).

(** The columns of an account that no method writes after the INSERT. *)
Definition account_identity (r : Account.t) : Z * string * string * Z :=
  (Account.account_id r, Account.account_number r, Account.account_holder r,
   Account.created_at r).

Definition is_create (c : Call) : bool :=
  match c with
  | CreateAccount _ _ _ => true
  | _ => false
  end.

(** The answers with which a mutating endpoint reports success. *)
Definition succeeded (response : Response) : bool :=
  match response with
  | AccountCreated _ | Deposited _ _ | Withdrew _ _
  | Transferred _ _ _ _ _ => true
  | _ => false
  end.

(** The account numbers a call passes to its method. *)
Definition names (c : Call) (m : string) : bool :=
  match c with
  | CreateAccount n _ _ | Deposit n _ _ | Withdraw n _ _ => String.eqb m n
  | Transfer f t _ _ => String.eqb m f || String.eqb m t
  end.

(** * The program on binary64 amounts

    [float(...)], Python's [+], [-] and [<], and SQLite's [balance - ?]
    and [balance + ?] on REAL values all work on IEEE 754 binary64
    numbers.  [Float64] embeds the methods and the money-moving endpoints
    once more with that arithmetic (Rocq's primitive [float]), for the
    statements that depend on what is actually written to a balance.  It
    also has the two failures of a statement that the exact ledger above
    leaves out: NaN, which SQLite binds as NULL and the NOT NULL columns
    refuse, and a limit that does not fit SQLite's 64-bit INTEGER.  Locks
    held by a connection that a method left open are not modelled; what is
    stated about a method here is stated relative to what it returns. *)

Module Float64.

Module Account.
Record t : Type := mk
  { account_id : Z
  ; account_number : string
  ; account_holder : string
  ; balance : float
  ; created_at : Z }.

Definition set_balance (new_balance : float) (r : t) : t :=
  mk (account_id r) (account_number r) (account_holder r) new_balance
     (created_at r).
End Account.

Module Transaction.
Record t : Type := mk
  { transaction_id : Z
  ; from_account : option string
  ; to_account : option string
  ; transaction_type : string
  ; amount : float
  ; description : option string
  ; timestamp : Z }.
End Transaction.

Record Database : Type := mkDatabase
  { accounts : list Account.t
  ; transactions : list Transaction.t }.

Definition empty_database : Database := mkDatabase [] [].

(** What a DECIMAL ... NOT NULL column keeps of a double: NaN is bound as
    NULL, which the constraint refuses ([None]: the statement raises
    [sqlite3.IntegrityError]); a double that is a whole number is kept as
    that INTEGER, so [-0.0] reads back as [0.0]; every other double,
    infinities included, reads back as it was written. *)
Definition stored (x : float) : option float :=
  if PrimFloat.is_nan x then None
  else if PrimFloat.eqb x 0 then Some 0%float
  else Some x.

Definition has_number (number : string) (r : Account.t) : bool :=
  String.eqb (Account.account_number r) number.

(** [SELECT balance FROM accounts WHERE account_number = ?], [fetchone],
    [float(result[0])]. *)
Definition select_balance (db : Database) (number : string) : option float :=
  option_map Account.balance (find (has_number number) (accounts db)).

(** [UPDATE accounts SET balance = <f balance> WHERE account_number = ?].
    When a new value is refused the statement raises and none of its
    changes is kept. *)
Fixpoint update_rows (f : float -> float) (number : string)
    (rows : list Account.t) : option (list Account.t) :=
  match rows with
  | [] => Some []
  | r :: rest =>
      if has_number number r
      then match stored (f (Account.balance r)),
                 update_rows f number rest with
           | Some new_balance, Some rest' =>
               Some (Account.set_balance new_balance r :: rest')
           | _, _ => None
           end
      else option_map (cons r) (update_rows f number rest)
  end.

Definition update_balance (f : float -> float) (number : string)
    (db : Database) : option Database :=
  option_map (fun rows => mkDatabase rows (transactions db))
             (update_rows f number (accounts db)).

(** [INSERT INTO transactions (...) VALUES ...]; [amount] is DECIMAL NOT
    NULL as well. *)
Definition insert_transaction (now : Z) (from_account to_account : option string)
    (transaction_type : string) (amount : float) (description : option string)
    (db : Database) : option Database :=
  option_map
    (fun kept =>
       mkDatabase
         (accounts db)
         (transactions db ++
            [Transaction.mk (next_id (transactions db)) from_account
               to_account transaction_type kept description now]))
    (stored amount).

(** [{acc[0]: float(acc[1]) for acc in accounts}] and its subscript. *)
Definition dict_get (key : string) (items : list (string * float))
  : option float :=
  option_map snd (find (fun kv => String.eqb (fst kv) key) (rev items)).

Module BankSystem.

(** Both the UNIQUE and the NOT NULL violation raise
    [sqlite3.IntegrityError], which the method turns into [False]. *)
Definition create_account (db : Database) (now : Z)
    (account_number account_holder : string) (initial_balance : float)
  : bool * Database :=
  if existsb (has_number account_number) (accounts db)
  then (false, db)
  else
    match stored initial_balance with
    | None => (false, db)
    | Some kept =>
        (true,
         mkDatabase
           (accounts db ++
              [Account.mk (next_id (accounts db)) account_number
                 account_holder kept now])
           (transactions db))
    end.

(** [fetchone] of the four columns.  A whole-number balance is read as a
    Python int of the same value; it is given here as the double that
    [float(account[2])] makes of it in the endpoints. *)
Definition get_account (db : Database) (account_number : string)
  : option (string * string * float * Z) :=
  option_map
    (fun r => (Account.account_number r, Account.account_holder r,
               Account.balance r, Account.created_at r))
    (find (has_number account_number) (accounts db)).

(** A statement that raises is caught by [except Exception]; nothing was
    committed, and the method returns [False]. *)
Definition deposit (db : Database) (now : Z) (account_number : string)
    (amount : float) (description : option string) : bool * Database :=
  match select_balance db account_number with
  | None => (false, db)
  | Some current_balance =>
      let new_balance := (current_balance + amount)%float in
      match update_balance (fun _ => new_balance) account_number db with
      | None => (false, db)
      | Some db1 =>
          match insert_transaction now None (Some account_number)
                  "DEPOSIT" amount description db1 with
          | None => (false, db)
          | Some db2 => (true, db2)
          end
      end
  end.

Definition withdraw (db : Database) (now : Z) (account_number : string)
    (amount : float) (description : option string) : bool * Database :=
  match select_balance db account_number with
  | None => (false, db)
  | Some current_balance =>
      if (current_balance <? amount)%float then (false, db)
      else
        let new_balance := (current_balance - amount)%float in
        match update_balance (fun _ => new_balance) account_number db with
        | None => (false, db)
        | Some db1 =>
            match insert_transaction now (Some account_number) None
                    "WITHDRAWAL" amount description db1 with
            | None => (false, db)
            | Some db2 => (true, db2)
            end
        end
  end.

Definition transfer (db : Database) (now : Z) (from_account to_account : string)
    (amount : float) (description : option string) : bool * Database :=
  let selected :=
    filter (fun r => has_number from_account r || has_number to_account r)
           (accounts db) in
  if negb (List.length selected =? 2)%nat then (false, db)
  else
    let account_balances :=
      map (fun acc => (Account.account_number acc, Account.balance acc))
          selected in
    match dict_get from_account account_balances with
    | None => (false, db)
    | Some from_balance =>
        if (from_balance <? amount)%float then (false, db)
        else
          match update_balance (fun b => (b - amount)%float) from_account db
          with
          | None => (false, db)
          | Some db1 =>
              match update_balance (fun b => (b + amount)%float)
                      to_account db1 with
              | None => (false, db)
              | Some db2 =>
                  match insert_transaction now (Some from_account)
                          (Some to_account) "TRANSFER" amount description
                          db2 with
                  | None => (false, db)
                  | Some db3 => (true, db3)
                  end
              end
          end
    end.

Definition column_is (column : option string) (value : string) : bool :=
  match column with
  | Some c => String.eqb c value
  | None => false
  end.

Definition involves (account_number : string) (t : Transaction.t) : bool :=
  column_is (Transaction.from_account t) account_number
  || column_is (Transaction.to_account t) account_number.

(** [ORDER BY timestamp DESC]; rows with the same timestamp stay in table
    order, which SQL leaves open. *)
Fixpoint insert_desc (t : Transaction.t) (sorted : list Transaction.t)
  : list Transaction.t :=
  match sorted with
  | [] => [t]
  | u :: rest =>
      if Transaction.timestamp u <=? Transaction.timestamp t
      then t :: u :: rest
      else u :: insert_desc t rest
  end.

Definition order_by_timestamp_desc (rows : list Transaction.t)
  : list Transaction.t :=
  fold_right insert_desc [] rows.

(** [LIMIT ?] for a value SQLite has received: no upper bound when it is
    negative. *)
Definition sql_limit {A : Type} (limit : Z) (rows : list A) : list A :=
  if limit <? 0 then rows else firstn (Z.to_nat limit) rows.

(** A Python [int] is bound as a 64-bit SQLite INTEGER; outside that range
    [execute] raises [OverflowError]. *)
Definition fits_int64 (n : Z) : bool :=
  (- 2 ^ 63 <=? n) && (n <? 2 ^ 63).

(** The six columns of the SELECT, in its order; the amount as the double
    that [float(trans[1])] makes of it. *)
Definition HistoryRow : Type :=
  (string * float * option string * option string * option string * Z)%type.

(** [None]: the [OverflowError] of the bind, which the method does not
    catch. *)
Definition get_transaction_history (db : Database) (account_number : string)
    (limit : Z) : option (list HistoryRow) :=
  if fits_int64 limit
  then Some
         (map (fun t => (Transaction.transaction_type t, Transaction.amount t,
                         Transaction.from_account t, Transaction.to_account t,
                         Transaction.description t, Transaction.timestamp t))
              (sql_limit limit
                 (order_by_timestamp_desc
                    (filter (involves account_number) (transactions db)))))
  else None.

End BankSystem.

(** ** The endpoints that move money *)

Module DepositWithdrawRequest.
Record t : Type := mk
  { amount : float
  ; description : option string }.

(** [Field(..., gt=0)]; NaN is not greater than 0. *)
Definition valid (request : t) : bool := (0 <? amount request)%float.
End DepositWithdrawRequest.

Module TransferRequest.
Record t : Type := mk
  { from_account : string
  ; to_account : string
  ; amount : float
  ; description : option string }.

Definition valid (request : t) : bool := (0 <? amount request)%float.
End TransferRequest.

Inductive Detail : Type :=
| AccountNotFound
| SourceAccountNotFound (account_number : string)
| DestinationAccountNotFound (account_number : string)
| SameAccountTransfer
| InsufficientFunds (current_balance : float)
| InsufficientFundsInSource (current_balance : float)
| DepositFailed
| WithdrawalFailed
| TransferFailed
| ValidationError.

Inductive Response : Type :=
| Deposited (amount new_balance : float)
| Withdrew (amount new_balance : float)
| Transferred (amount : float) (from_account to_account : string)
    (from_account_balance to_account_balance : float)
| HTTPException (status_code : Z) (detail : Detail)
| InternalServerError.

Definition balance_column (account : string * string * float * Z) : float :=
  snd (fst account).

Definition deposit (bank : Database) (now : Z) (account_number : string)
    (request : DepositWithdrawRequest.t) : Response * Database :=
  if negb (DepositWithdrawRequest.valid request)
  then (HTTPException 422 ValidationError, bank)
  else
    match BankSystem.get_account bank account_number with
    | None => (HTTPException 404 AccountNotFound, bank)
    | Some account =>
        let (success, bank') :=
          BankSystem.deposit bank now account_number
            (DepositWithdrawRequest.amount request)
            (description_or (DepositWithdrawRequest.description request)
               "Deposit") in
        if success
        then
          match BankSystem.get_account bank' account_number with
          | Some updated_account =>
              (Deposited (DepositWithdrawRequest.amount request)
                 (balance_column updated_account), bank')
          | None => (InternalServerError, bank')
          end
        else (HTTPException 400 DepositFailed, bank')
    end.

Definition withdraw (bank : Database) (now : Z) (account_number : string)
    (request : DepositWithdrawRequest.t) : Response * Database :=
  if negb (DepositWithdrawRequest.valid request)
  then (HTTPException 422 ValidationError, bank)
  else
    match BankSystem.get_account bank account_number with
    | None => (HTTPException 404 AccountNotFound, bank)
    | Some account =>
        let (success, bank') :=
          BankSystem.withdraw bank now account_number
            (DepositWithdrawRequest.amount request)
            (description_or (DepositWithdrawRequest.description request)
               "Withdrawal") in
        if success
        then
          match BankSystem.get_account bank' account_number with
          | Some updated_account =>
              (Withdrew (DepositWithdrawRequest.amount request)
                 (balance_column updated_account), bank')
          | None => (InternalServerError, bank')
          end
        else
          let current_balance := balance_column account in
          if (current_balance <? DepositWithdrawRequest.amount request)%float
          then (HTTPException 400 (InsufficientFunds current_balance), bank')
          else (HTTPException 400 WithdrawalFailed, bank')
    end.

Definition transfer (bank : Database) (now : Z) (request : TransferRequest.t)
  : Response * Database :=
  let source := TransferRequest.from_account request in
  let destination := TransferRequest.to_account request in
  if negb (TransferRequest.valid request)
  then (HTTPException 422 ValidationError, bank)
  else if String.eqb source destination
  then (HTTPException 400 SameAccountTransfer, bank)
  else
    match BankSystem.get_account bank source,
          BankSystem.get_account bank destination with
    | None, _ => (HTTPException 404 (SourceAccountNotFound source), bank)
    | Some _, None =>
        (HTTPException 404 (DestinationAccountNotFound destination), bank)
    | Some from_account, Some to_account =>
        let (success, bank') :=
          BankSystem.transfer bank now source destination
            (TransferRequest.amount request)
            (TransferRequest.description request) in
        if success
        then
          match BankSystem.get_account bank' source,
                BankSystem.get_account bank' destination with
          | Some updated_from, Some updated_to =>
              (Transferred (TransferRequest.amount request) source destination
                 (balance_column updated_from) (balance_column updated_to),
               bank')
          | _, _ => (InternalServerError, bank')
          end
        else
          let current_balance := balance_column from_account in
          if (current_balance <? TransferRequest.amount request)%float
          then (HTTPException 400 (InsufficientFundsInSource current_balance),
                bank')
          else (HTTPException 400 TransferFailed, bank')
    end.

(** ** Sequences of calls, observations *)

Inductive Call : Type :=
| CreateAccount (account_number account_holder : string)
    (initial_balance : float)
| Deposit (account_number : string) (amount : float)
    (description : option string)
| Withdraw (account_number : string) (amount : float)
    (description : option string)
| Transfer (from_account to_account : string) (amount : float)
    (description : option string).

Definition call (db : Database) (now : Z) (c : Call) : bool * Database :=
  match c with
  | CreateAccount n h b => BankSystem.create_account db now n h b
  | Deposit n a d => BankSystem.deposit db now n a d
  | Withdraw n a d => BankSystem.withdraw db now n a d
  | Transfer f t a d => BankSystem.transfer db now f t a d
  end.

Fixpoint run (db : Database) (calls : list (Z * Call)) : Database :=
  match calls with
  | [] => db
  | (now, c) :: rest => run (snd (call db now c)) rest
  end.

Definition account_numbers (db : Database) : list string :=
  map Account.account_number (accounts db).

Definition unique_numbers (db : Database) : Prop :=
  NoDup (account_numbers db).

Definition names_account (db : Database) (column : option string) : Prop :=
  match column with
  | Some n => In n (account_numbers db)
  | None => True
  end.

Definition references_hold (db : Database) : Prop :=
  Forall (fun t => names_account db (Transaction.from_account t)
                   /\ names_account db (Transaction.to_account t))
         (transactions db).

(** The exact value of a finite double in units of 2^-1074, the spacing of
    the smallest doubles; every finite double is a whole number of them.
    Infinities and NaN count 0. *)
Definition units (x : float) : Z :=
  match Prim2SF x with
  | S754_finite s m e => (if s then -1 else 1) * Z.pos m * 2 ^ (e + 1074)
  | _ => 0
  end.

(** The exact sum of all balances, in the same units. *)
Definition exact_total (db : Database) : Z :=
  fold_right Z.add 0 (map (fun r => units (Account.balance r)) (accounts db)).

Definition newer_first (t u : Transaction.t) : Prop :=
  Transaction.timestamp u <= Transaction.timestamp t.

(** ACC001 holds 1000.00 and ACC002 holds 500.00, as in the test suite. *)
Definition fixture : Database :=
  run empty_database
    [ (0, CreateAccount "ACC001" "John Doe" 1000)
    ; (0, CreateAccount "ACC002" "Jane Smith" 500) ].

(** ACC001 holds 1e16, where neighbouring doubles are 2 apart, and ACC002
    holds 5.00. *)
Definition wealthy : Database :=
  run empty_database
    [ (0, CreateAccount "ACC001" "John Doe" 1e16)
    ; (0, CreateAccount "ACC002" "Jane Smith" 5) ].

(** Four transactions, three of them on ACC001. *)
Definition busy : Database :=
  run fixture
    [ (5, Deposit "ACC001" 200 (Some "Test deposit"))
    ; (7, Withdraw "ACC001" 100 (Some "Test withdrawal"))
    ; (6, Transfer "ACC001" "ACC002" 150 (Some "Test transfer"))
    ; (8, Deposit "ACC002" 1 None) ].

End Float64.

(** * Proofs *)

(** ** Lists *)

Section ListFacts.
Context {A : Type}.

Lemma find_app (p : A -> bool) (l1 l2 : list A) :
  find p (l1 ++ l2) =
  match find p l1 with
  | Some x => Some x
  | None => find p l2
  end.
Proof.
  induction l1 as [|x l1 IH]; simpl; [reflexivity|].
  destruct (p x); [reflexivity | exact IH].
Qed.

Lemma find_filter_implied (p q : A -> bool) (l : list A) :
  (forall x, p x = true -> q x = true) ->
  find p (filter q l) = find p l.
Proof.
  intros Himp. induction l as [|x l IH]; simpl; [reflexivity|].
  destruct (q x) eqn:Hq; simpl.
  - now rewrite IH.
  - destruct (p x) eqn:Hp; [|exact IH].
    apply Himp in Hp. congruence.
Qed.

Lemma filter_or_length (p q : A -> bool) (l : list A) :
  (forall x, p x = true -> q x = true -> False) ->
  List.length (filter (fun x => p x || q x) l)
  = (List.length (filter p l) + List.length (filter q l))%nat.
Proof.
  intros Hdisj. induction l as [|x l IH]; simpl; [reflexivity|].
  destruct (p x) eqn:Hp, (q x) eqn:Hq; simpl; try lia.
  exfalso. eauto.
Qed.

Lemma find_none_filter (p : A -> bool) (l : list A) :
  find p l = None -> filter p l = [].
Proof.
  induction l as [|x l IH]; simpl; [reflexivity|].
  destruct (p x); [discriminate | exact IH].
Qed.
End ListFacts.

Lemma find_map_pre {A B : Type} (g : A -> B) (p : B -> bool) (l : list A) :
  find p (map g l) = option_map g (find (fun x => p (g x)) l).
Proof.
  induction l as [|x l IH]; simpl; [reflexivity|].
  destruct (p (g x)); [reflexivity | exact IH].
Qed.

(** ** Rows of [accounts] *)

Lemma has_number_iff (n : string) (r : Account.t) :
  has_number n r = true <-> Account.account_number r = n.
Proof. unfold has_number. apply String.eqb_eq. Qed.

Lemma has_number_set_balance (n : string) (b : Z) (r : Account.t) :
  has_number n (Account.set_balance b r) = has_number n r.
Proof. reflexivity. Qed.

Lemma find_number_absent (n : string) (rows : list Account.t) :
  ~ In n (map Account.account_number rows) ->
  find (has_number n) rows = None.
Proof.
  induction rows as [|r rows IH]; simpl; intros Hnot; [reflexivity|].
  destruct (has_number n r) eqn:Hr.
  - apply has_number_iff in Hr. tauto.
  - apply IH. tauto.
Qed.

Lemma find_number_present (n : string) (rows : list Account.t) :
  In n (map Account.account_number rows) ->
  exists r, find (has_number n) rows = Some r.
Proof.
  induction rows as [|r rows IH]; simpl; intros Hin; [contradiction|].
  destruct (has_number n r) eqn:Hr; [eauto|].
  destruct Hin as [Heq|Hin]; [|auto].
  apply has_number_iff in Heq. congruence.
Qed.

Lemma find_number_some (n : string) (rows : list Account.t) (r : Account.t) :
  find (has_number n) rows = Some r ->
  In r rows /\ Account.account_number r = n.
Proof.
  intros H. apply find_some in H. now rewrite has_number_iff in H.
Qed.

(** With unique account numbers, [WHERE account_number = ?] selects the row
    [fetchone] would return and nothing else. *)
Lemma filter_number_unique (n : string) (rows : list Account.t) :
  NoDup (map Account.account_number rows) ->
  filter (has_number n) rows =
  match find (has_number n) rows with
  | Some r => [r]
  | None => []
  end.
Proof.
  induction rows as [|r rows IH]; simpl; intros Hnd; [reflexivity|].
  inversion Hnd as [|? ? Hnotin Hnd']; subst.
  destruct (has_number n r) eqn:Hr.
  - apply has_number_iff in Hr. rewrite <- Hr.
    now rewrite (find_none_filter _ _ (find_number_absent _ _ Hnotin)).
  - auto.
Qed.

Lemma find_number_rev (n : string) (rows : list Account.t) :
  NoDup (map Account.account_number rows) ->
  find (has_number n) (rev rows) = find (has_number n) rows.
Proof.
  induction rows as [|r rows IH]; simpl; intros Hnd; [reflexivity|].
  inversion Hnd as [|? ? Hnotin Hnd']; subst.
  rewrite find_app, (IH Hnd'). simpl.
  destruct (has_number n r) eqn:Hr.
  - apply has_number_iff in Hr. rewrite <- Hr.
    now rewrite (find_number_absent _ _ Hnotin).
  - now destruct (find (has_number n) rows).
Qed.

Lemma NoDup_numbers_filter (q : Account.t -> bool) (rows : list Account.t) :
  NoDup (map Account.account_number rows) ->
  NoDup (map Account.account_number (filter q rows)).
Proof.
  induction rows as [|r rows IH]; simpl; intros Hnd; [constructor|].
  inversion Hnd as [|? ? Hnotin Hnd']; subst.
  destruct (q r); simpl; [|auto].
  constructor; [|auto].
  intros Hin. apply Hnotin.
  apply in_map_iff in Hin as (x & Hx & Hin).
  apply filter_In in Hin. apply in_map_iff. exists x. tauto.
Qed.

(** ** The UPDATE and INSERT statements *)

Lemma account_numbers_update (f : Z -> Z) (n : string) (db : Database) :
  account_numbers (update_balance f n db) = account_numbers db.
Proof.
  unfold account_numbers, update_balance; simpl.
  rewrite map_map. apply map_ext. intros r. now destruct (has_number n r).
Qed.

Lemma select_balance_update (f : Z -> Z) (n m : string) (db : Database) :
  select_balance (update_balance f n db) m =
  option_map (fun b => if String.eqb m n then f b else b)
             (select_balance db m).
Proof.
  unfold select_balance, update_balance; simpl.
  induction (accounts db) as [|r rows IH]; simpl; [reflexivity|].
  destruct (has_number n r) eqn:Hn.
  - rewrite has_number_set_balance.
    destruct (has_number m r) eqn:Hm; [|exact IH]. simpl.
    apply has_number_iff in Hn, Hm.
    assert (Heq : String.eqb m n = true) by (apply String.eqb_eq; congruence).
    now rewrite Heq.
  - destruct (has_number m r) eqn:Hm; [|exact IH]. simpl.
    destruct (String.eqb m n) eqn:Heq; [|reflexivity].
    apply String.eqb_eq in Heq. subst m. congruence.
Qed.

Lemma total_balance_update (f : Z -> Z) (n : string) (db : Database) :
  unique_numbers db ->
  total_balance (update_balance f n db) =
  total_balance db +
  match select_balance db n with
  | Some b => f b - b
  | None => 0
  end.
Proof.
  unfold unique_numbers, account_numbers, total_balance, select_balance,
    update_balance; simpl.
  induction (accounts db) as [|r rows IH]; simpl; intros Hnd; [lia|].
  inversion Hnd as [|? ? Hnotin Hnd']; subst.
  destruct (has_number n r) eqn:Hn; simpl.
  - apply has_number_iff in Hn. subst n.
    rewrite (IH Hnd'), (find_number_absent _ _ Hnotin). simpl. lia.
  - rewrite (IH Hnd'). lia.
Qed.


Lemma account_numbers_insert (now : Z) (fa ta : option string) (ty : string)
    (a : Z) (d : option string) (db : Database) :
  account_numbers (insert_transaction now fa ta ty a d db)
  = account_numbers db.
Proof. reflexivity. Qed.

Lemma consistent_update (f : Z -> Z) (n : string) (db : Database) :
  consistent db -> consistent (update_balance f n db).
Proof.
  unfold consistent, unique_numbers, references_hold, names_account.
  rewrite account_numbers_update. tauto.
Qed.

Lemma consistent_insert (now : Z) (from_account to_account : option string)
    (transaction_type : string) (amount : Z) (description : option string)
    (db : Database) :
  consistent db ->
  names_account db from_account -> names_account db to_account ->
  consistent
    (insert_transaction now from_account to_account transaction_type amount
       description db).
Proof.
  unfold consistent, unique_numbers, references_hold.
  intros [Hu Hr] Hf Ht. split; [exact Hu|].
  simpl. apply Forall_app. split; [exact Hr|].
  constructor; [split; assumption | constructor].
Qed.

Lemma select_balance_names (db : Database) (n : string) (b : Z) :
  select_balance db n = Some b -> In n (account_numbers db).
Proof.
  unfold select_balance, account_numbers. intros H.
  destruct (find (has_number n) (accounts db)) as [r|] eqn:Hfind;
    [|discriminate].
  apply find_number_some in Hfind as [Hin <-]. now apply in_map.
Qed.

(** [get_account] finds a row exactly when [SELECT balance] does, and its
    third column is that balance. *)
Lemma get_account_balance (db : Database) (n : string) :
  option_map balance_column (BankSystem.get_account db n)
  = select_balance db n.
Proof.
  unfold BankSystem.get_account, select_balance.
  now destruct (find (has_number n) (accounts db)).
Qed.

(** ** What [transfer] reads *)

(** With unique account numbers the SELECT of [transfer] returns two rows
    exactly when both accounts exist and are different. *)
Lemma transfer_selects_two (db : Database) (f t : string) :
  unique_numbers db ->
  (List.length
     (filter (fun r => has_number f r || has_number t r) (accounts db))
   =? 2)%nat
  = match select_balance db f, select_balance db t with
    | Some _, Some _ => negb (String.eqb f t)
    | _, _ => false
    end.
Proof.
  unfold unique_numbers, account_numbers, select_balance. intros Hnd.
  destruct (String.eqb f t) eqn:Heq.
  - apply String.eqb_eq in Heq. subst t.
    rewrite (filter_ext _ (has_number f))
      by (intros r; now destruct (has_number f r)).
    rewrite (filter_number_unique _ _ Hnd).
    now destruct (find (has_number f) (accounts db)).
  - rewrite filter_or_length.
    + rewrite !(filter_number_unique _ _ Hnd).
      now destruct (find (has_number f) (accounts db)),
                   (find (has_number t) (accounts db)).
    + intros r Hf Ht. apply has_number_iff in Hf, Ht.
      apply String.eqb_neq in Heq. congruence.
Qed.

(** The dictionary built from the selected rows maps [from_account] to the
    balance that [SELECT balance] reads. *)
Lemma transfer_reads_balance (db : Database) (f t : string) :
  unique_numbers db ->
  dict_get f
    (map (fun acc => (Account.account_number acc, Account.balance acc))
       (filter (fun r => has_number f r || has_number t r) (accounts db)))
  = select_balance db f.
Proof.
  unfold unique_numbers, account_numbers, dict_get, select_balance.
  intros Hnd.
  rewrite <- map_rev, find_map_pre. simpl.
  change (fun x : Account.t => String.eqb (Account.account_number x) f)
    with (has_number f).
  rewrite find_number_rev by now apply NoDup_numbers_filter.
  rewrite find_filter_implied by (intros r ->; reflexivity).
  now destruct (find (has_number f) (accounts db)).
Qed.

Lemma transfer_unique (db : Database) (now : Z) (f t : string) (a : Z)
    (d : option string) :
  unique_numbers db ->
  BankSystem.transfer db now f t a d =
  match select_balance db f, select_balance db t with
  | Some from_balance, Some _ =>
      if String.eqb f t || (from_balance <? a)
      then (false, db)
      else (true, after_transfer db now f t a d)
  | _, _ => (false, db)
  end.
Proof.
  intros Hu. unfold BankSystem.transfer.
  rewrite (transfer_selects_two _ _ _ Hu), (transfer_reads_balance _ _ _ Hu).
  destruct (select_balance db f) as [fb|]; [|reflexivity].
  destruct (select_balance db t) as [tb|]; [|reflexivity].
  destruct (String.eqb f t); simpl; [reflexivity|].
  now destruct (fb <? a).
Qed.

(** ** The methods keep the database consistent *)

Lemma existsb_number_false (n : string) (rows : list Account.t) :
  existsb (has_number n) rows = false ->
  ~ In n (map Account.account_number rows).
Proof.
  intros Hex Hin. apply in_map_iff in Hin as (r & Hr & Hin).
  assert (existsb (has_number n) rows = true); [|congruence].
  apply existsb_exists. exists r. split; [exact Hin|].
  now apply has_number_iff.
Qed.

Lemma consistent_empty : consistent empty_database.
Proof. repeat constructor. Qed.

Lemma account_numbers_transfer (db : Database) (now : Z) (f t : string)
    (a : Z) (d : option string) :
  account_numbers (snd (BankSystem.transfer db now f t a d))
  = account_numbers db.
Proof.
  unfold BankSystem.transfer.
  destruct (negb _); [reflexivity|].
  destruct (dict_get _ _) as [fb|]; [|reflexivity].
  destruct (fb <? a); [reflexivity|].
  cbn [snd]. now rewrite account_numbers_insert, !account_numbers_update.
Qed.

(** [create_account] keeps the account numbers unique: this is the UNIQUE
    constraint doing its work. *)
Lemma unique_create_account (db : Database) (now : Z) (n h : string) (b : Z) :
  unique_numbers db ->
  unique_numbers (snd (BankSystem.create_account db now n h b)).
Proof.
  unfold BankSystem.create_account. intros Hu.
  destruct (existsb (has_number n) (accounts db)) eqn:Hex; simpl;
    [exact Hu|].
  unfold unique_numbers, account_numbers in *. simpl.
  rewrite map_app. simpl.
  apply NoDup_rev in Hu. rewrite <- (rev_involutive (_ ++ _)).
  apply NoDup_rev. rewrite rev_app_distr. simpl. constructor; [|exact Hu].
  rewrite <- in_rev. now apply existsb_number_false.
Qed.

Lemma account_numbers_deposit (db : Database) (now : Z) (n : string) (a : Z)
    (d : option string) :
  account_numbers (snd (BankSystem.deposit db now n a d)) = account_numbers db.
Proof.
  unfold BankSystem.deposit.
  destruct (select_balance db n); [|reflexivity].
  cbn [snd]. now rewrite account_numbers_insert, account_numbers_update.
Qed.

Lemma account_numbers_withdraw (db : Database) (now : Z) (n : string) (a : Z)
    (d : option string) :
  account_numbers (snd (BankSystem.withdraw db now n a d)) = account_numbers db.
Proof.
  unfold BankSystem.withdraw.
  destruct (select_balance db n) as [cur|]; [|reflexivity].
  destruct (cur <? a); [reflexivity|].
  cbn [snd]. now rewrite account_numbers_insert, account_numbers_update.
Qed.

Lemma consistent_create_account (db : Database) (now : Z) (n h : string)
    (b : Z) :
  consistent db -> consistent (snd (BankSystem.create_account db now n h b)).
Proof.
  intros [Hu Hr]. split; [now apply unique_create_account|].
  unfold BankSystem.create_account.
  destruct (existsb (has_number n) (accounts db)) eqn:Hex; simpl;
    [exact Hr|].
  unfold references_hold, names_account, account_numbers in *. simpl.
  eapply Forall_impl; [|exact Hr]. intros t [Hf Ht]. rewrite map_app.
  split; [destruct (Transaction.from_account t)
         | destruct (Transaction.to_account t)];
    trivial; apply in_or_app; now left.
Qed.

Lemma consistent_deposit (db : Database) (now : Z) (n : string) (a : Z)
    (d : option string) :
  consistent db -> consistent (snd (BankSystem.deposit db now n a d)).
Proof.
  unfold BankSystem.deposit. intros Hc.
  destruct (select_balance db n) as [b|] eqn:Hsel; simpl; [|exact Hc].
  apply consistent_insert; [now apply consistent_update | exact I |].
  simpl. rewrite account_numbers_update. eapply select_balance_names; eauto.
Qed.

Lemma consistent_withdraw (db : Database) (now : Z) (n : string) (a : Z)
    (d : option string) :
  consistent db -> consistent (snd (BankSystem.withdraw db now n a d)).
Proof.
  unfold BankSystem.withdraw. intros Hc.
  destruct (select_balance db n) as [b|] eqn:Hsel; simpl; [|exact Hc].
  destruct (b <? a); simpl; [exact Hc|].
  apply consistent_insert; [now apply consistent_update | | exact I].
  simpl. rewrite account_numbers_update. eapply select_balance_names; eauto.
Qed.

Lemma consistent_transfer (db : Database) (now : Z) (f t : string) (a : Z)
    (d : option string) :
  consistent db -> consistent (snd (BankSystem.transfer db now f t a d)).
Proof.
  intros Hc. rewrite transfer_unique by apply Hc.
  destruct (select_balance db f) as [fb|] eqn:Hf; [|exact Hc].
  destruct (select_balance db t) as [tb|] eqn:Ht; [|exact Hc].
  destruct (String.eqb f t || (fb <? a)); simpl; [exact Hc|].
  apply consistent_insert.
  - now do 2 apply consistent_update.
  - simpl. rewrite !account_numbers_update.
    eapply select_balance_names; eauto.
  - simpl. rewrite !account_numbers_update.
    eapply select_balance_names; eauto.
Qed.

Lemma consistent_call (db : Database) (now : Z) (c : Call) :
  consistent db -> consistent (snd (call db now c)).
Proof.
  destruct c; simpl;
    auto using consistent_create_account, consistent_deposit,
      consistent_withdraw, consistent_transfer.
Qed.

Lemma consistent_run (calls : list (Z * Call)) (db : Database) :
  consistent db -> consistent (run db calls).
Proof.
  revert db. induction calls as [|[now c] calls IH]; simpl; intros db Hc;
    [exact Hc|].
  apply IH. now apply consistent_call.
Qed.

(** Every database built from the empty one by method calls is
    consistent. *)
Lemma consistent_reachable (calls : list (Z * Call)) :
  consistent (run empty_database calls).
Proof. apply consistent_run, consistent_empty. Qed.

Lemma unique_call (db : Database) (now : Z) (c : Call) :
  unique_numbers db -> unique_numbers (snd (call db now c)).
Proof.
  destruct c as [n h b|n a d|n a d|f t a d]; simpl;
    [apply unique_create_account | | |]; unfold unique_numbers;
    now rewrite ?account_numbers_deposit, ?account_numbers_withdraw,
      ?account_numbers_transfer.
Qed.

Lemma unique_fixture : unique_numbers fixture.
Proof.
  unfold unique_numbers. simpl.
  repeat constructor; simpl; intuition discriminate.
Qed.

(** ** Balances stay non-negative *)

Lemma unique_row (n : string) (rows : list Account.t) (r0 r : Account.t) :
  NoDup (map Account.account_number rows) ->
  find (has_number n) rows = Some r0 ->
  In r rows -> Account.account_number r = n -> r = r0.
Proof.
  intros Hnd Hfind Hin Hn.
  assert (Hf : In r (filter (has_number n) rows))
    by (apply filter_In; split; [exact Hin | now apply has_number_iff]).
  rewrite (filter_number_unique _ _ Hnd), Hfind in Hf.
  destruct Hf as [Heq|[]]. now symmetry.
Qed.





(** An endpoint either leaves the database alone or commits one method call
    whose numeric argument it has validated. *)
Lemma serve_is_call (bank : Database) (now : Z) (r : Request) :
  snd (serve bank now r) = bank
  \/ exists c, in_bounds c /\ snd (serve bank now r) = snd (call bank now c).
Proof.
  destruct r as [request|n request|n request|request]; simpl.
  - unfold create_account, CreateAccountRequest.valid.
    destruct (0 <=? CreateAccountRequest.initial_balance request) eqn:Hv;
      simpl; [|now left].
    right.
    exists (CreateAccount (CreateAccountRequest.account_number request)
              (CreateAccountRequest.account_holder request)
              (CreateAccountRequest.initial_balance request)).
    split; [now apply Z.leb_le|]. simpl.
    destruct (BankSystem.create_account _ _ _ _ _) as [[|] bank'];
      reflexivity.
  - unfold deposit, DepositWithdrawRequest.valid.
    destruct (0 <? DepositWithdrawRequest.amount request) eqn:Hv;
      simpl; [|now left].
    destruct (BankSystem.get_account bank n); [|now left].
    right.
    exists (Deposit n (DepositWithdrawRequest.amount request)
              (description_or (DepositWithdrawRequest.description request)
                 "Deposit")).
    split; [now apply Z.ltb_lt|]. simpl.
    destruct (BankSystem.deposit _ _ _ _ _) as [[|] bank']; simpl;
      [now destruct (BankSystem.get_account bank' n) | reflexivity].
  - unfold withdraw, DepositWithdrawRequest.valid.
    destruct (0 <? DepositWithdrawRequest.amount request) eqn:Hv;
      simpl; [|now left].
    destruct (BankSystem.get_account bank n); [|now left].
    right.
    exists (Withdraw n (DepositWithdrawRequest.amount request)
              (description_or (DepositWithdrawRequest.description request)
                 "Withdrawal")).
    split; [now apply Z.ltb_lt|]. simpl.
    destruct (BankSystem.withdraw _ _ _ _ _) as [[|] bank']; simpl;
      [now destruct (BankSystem.get_account bank' n)|].
    match goal with |- context [if ?b then _ else _] => now destruct b end.
  - unfold transfer, TransferRequest.valid.
    destruct (0 <? TransferRequest.amount request) eqn:Hv;
      simpl; [|now left].
    destruct (String.eqb _ _); [now left|].
    destruct (BankSystem.get_account bank _); [|now left].
    destruct (BankSystem.get_account bank _); [|now left].
    right.
    exists (Transfer (TransferRequest.from_account request)
              (TransferRequest.to_account request)
              (TransferRequest.amount request)
              (TransferRequest.description request)).
    split; [now apply Z.ltb_lt|]. simpl.
    destruct (BankSystem.transfer _ _ _ _ _ _) as [[|] bank']; simpl.
    + repeat match goal with
             | |- context [match ?x with Some _ => _ | None => _ end] =>
                 destruct x
             end; reflexivity.
    + match goal with |- context [if ?b then _ else _] => now destruct b end.
Qed.


(** ** Balances after a method call *)

Lemma select_balance_insert (now : Z) (fa ta : option string) (ty : string)
    (a : Z) (d : option string) (db : Database) (m : string) :
  select_balance (insert_transaction now fa ta ty a d db) m
  = select_balance db m.
Proof. reflexivity. Qed.

Lemma get_account_some (db : Database) (n : string) (b : Z) :
  select_balance db n = Some b ->
  exists account,
    BankSystem.get_account db n = Some account /\ balance_column account = b.
Proof.
  rewrite <- get_account_balance.
  destruct (BankSystem.get_account db n) as [account|]; [|discriminate].
  simpl. intros [= <-]. eauto.
Qed.

Lemma get_account_none (db : Database) (n : string) :
  select_balance db n = None -> BankSystem.get_account db n = None.
Proof.
  rewrite <- get_account_balance.
  now destruct (BankSystem.get_account db n).
Qed.

Lemma select_balance_after_transfer (db : Database) (now : Z) (f t : string)
    (a : Z) (d : option string) (m : string) :
  f <> t ->
  select_balance (after_transfer db now f t a d) m =
  option_map
    (fun b => if String.eqb m f then b - a
              else if String.eqb m t then b + a else b)
    (select_balance db m).
Proof.
  intros Hneq. unfold after_transfer.
  rewrite select_balance_insert, !select_balance_update.
  destruct (select_balance db m) as [b|]; [|reflexivity]. simpl.
  destruct (String.eqb m f) eqn:Hf; [|reflexivity].
  destruct (String.eqb m t) eqn:Ht; [|reflexivity].
  apply String.eqb_eq in Hf, Ht. congruence.
Qed.

(** ** The endpoints, case by case *)

Lemma deposit_endpoint (bank : Database) (now : Z) (n : string)
    (request : DepositWithdrawRequest.t) :
  let a := DepositWithdrawRequest.amount request in
  let d := description_or (DepositWithdrawRequest.description request)
             "Deposit" in
  deposit bank now n request =
  if negb (0 <? a) then (HTTPException 422 ValidationError, bank)
  else
    match select_balance bank n with
    | None => (HTTPException 404 AccountNotFound, bank)
    | Some current =>
        (Deposited a (current + a), snd (BankSystem.deposit bank now n a d))
    end.
Proof.
  intros a d. unfold deposit, DepositWithdrawRequest.valid. fold a d.
  destruct (0 <? a); simpl; [|reflexivity].
  destruct (select_balance bank n) as [cur|] eqn:Hsel.
  - destruct (get_account_some _ _ _ Hsel) as (account & -> & Hb).
    unfold BankSystem.deposit. rewrite Hsel.
    set (bank' := insert_transaction _ _ _ _ _ _ _).
    assert (Hsel' : select_balance bank' n = Some (cur + a)).
    { unfold bank'. rewrite select_balance_insert, select_balance_update.
      now rewrite Hsel, String.eqb_refl. }
    now destruct (get_account_some _ _ _ Hsel') as (updated & -> & ->).
  - now rewrite (get_account_none _ _ Hsel).
Qed.

Lemma withdraw_endpoint (bank : Database) (now : Z) (n : string)
    (request : DepositWithdrawRequest.t) :
  let a := DepositWithdrawRequest.amount request in
  let d := description_or (DepositWithdrawRequest.description request)
             "Withdrawal" in
  withdraw bank now n request =
  if negb (0 <? a) then (HTTPException 422 ValidationError, bank)
  else
    match select_balance bank n with
    | None => (HTTPException 404 AccountNotFound, bank)
    | Some current =>
        if current <? a
        then (HTTPException 400 (InsufficientFunds current), bank)
        else (Withdrew a (current - a),
              snd (BankSystem.withdraw bank now n a d))
    end.
Proof.
  intros a d. unfold withdraw, DepositWithdrawRequest.valid. fold a d.
  destruct (0 <? a); simpl; [|reflexivity].
  destruct (select_balance bank n) as [cur|] eqn:Hsel.
  - destruct (get_account_some _ _ _ Hsel) as (account & -> & Hb).
    unfold BankSystem.withdraw. rewrite Hsel.
    destruct (cur <? a) eqn:Hlt; [now rewrite Hb, Hlt|].
    set (bank' := insert_transaction _ _ _ _ _ _ _).
    assert (Hsel' : select_balance bank' n = Some (cur - a)).
    { unfold bank'. rewrite select_balance_insert, select_balance_update.
      now rewrite Hsel, String.eqb_refl. }
    now destruct (get_account_some _ _ _ Hsel') as (updated & -> & ->).
  - now rewrite (get_account_none _ _ Hsel).
Qed.

Lemma transfer_endpoint (bank : Database) (now : Z)
    (request : TransferRequest.t) :
  let f := TransferRequest.from_account request in
  let t := TransferRequest.to_account request in
  let a := TransferRequest.amount request in
  let d := TransferRequest.description request in
  unique_numbers bank ->
  transfer bank now request =
  if negb (0 <? a) then (HTTPException 422 ValidationError, bank)
  else if String.eqb f t then (HTTPException 400 SameAccountTransfer, bank)
  else
    match select_balance bank f, select_balance bank t with
    | None, _ => (HTTPException 404 (SourceAccountNotFound f), bank)
    | Some _, None =>
        (HTTPException 404 (DestinationAccountNotFound t), bank)
    | Some from_balance, Some to_balance =>
        if from_balance <? a
        then (HTTPException 400 (InsufficientFundsInSource from_balance),
              bank)
        else (Transferred a f t (from_balance - a) (to_balance + a),
              after_transfer bank now f t a d)
    end.
Proof.
  intros f t a d Hu. unfold transfer, TransferRequest.valid. fold f t a d.
  destruct (0 <? a); simpl; [|reflexivity].
  destruct (String.eqb f t) eqn:Heq; [reflexivity|].
  rewrite (transfer_unique _ _ _ _ _ _ Hu), Heq. simpl.
  apply String.eqb_neq in Heq.
  destruct (select_balance bank f) as [fb|] eqn:Hf;
    [|now rewrite (get_account_none _ _ Hf)].
  destruct (get_account_some _ _ _ Hf) as (from_account & -> & Hfb).
  destruct (select_balance bank t) as [tb|] eqn:Ht;
    [|now rewrite (get_account_none _ _ Ht)].
  destruct (get_account_some _ _ _ Ht) as (to_account & -> & Htb).
  destruct (fb <? a) eqn:Hlt; [now rewrite Hfb, Hlt|].
  assert (Hf' : select_balance (after_transfer bank now f t a d) f
                = Some (fb - a)).
  { rewrite select_balance_after_transfer, Hf by exact Heq. simpl.
    now rewrite String.eqb_refl. }
  assert (Ht' : select_balance (after_transfer bank now f t a d) t
                = Some (tb + a)).
  { rewrite select_balance_after_transfer, Ht by exact Heq. simpl.
    rewrite String.eqb_refl.
    assert (String.eqb t f = false) as -> by (apply String.eqb_neq; congruence).
    reflexivity. }
  destruct (get_account_some _ _ _ Hf') as (updated_from & -> & ->).
  now destruct (get_account_some _ _ _ Ht') as (updated_to & -> & ->).
Qed.

(** ** Failure and success of the methods *)

Lemma transfer_false (db : Database) (now : Z) (f t : string) (a : Z)
    (d : option string) :
  fst (BankSystem.transfer db now f t a d) = false ->
  snd (BankSystem.transfer db now f t a d) = db.
Proof.
  unfold BankSystem.transfer.
  destruct (negb _); [reflexivity|].
  destruct (dict_get _ _) as [fb|]; [|reflexivity].
  now destruct (fb <? a).
Qed.

Lemma total_balance_after_transfer (db : Database) (now : Z) (f t : string)
    (a : Z) (d : option string) (fb tb : Z) :
  unique_numbers db -> f <> t ->
  select_balance db f = Some fb -> select_balance db t = Some tb ->
  total_balance (after_transfer db now f t a d) = total_balance db.
Proof.
  intros Hu Hneq Hf Ht. unfold after_transfer.
  change (total_balance (insert_transaction ?n ?x ?y ?ty ?am ?de ?db0))
    with (total_balance db0).
  rewrite total_balance_update
    by (unfold unique_numbers; now rewrite account_numbers_update).
  rewrite select_balance_update, Ht. simpl.
  rewrite (total_balance_update _ _ _ Hu), Hf.
  assert (String.eqb t f = false) as ->
      by (apply String.eqb_neq; congruence).
  lia.
Qed.

(** ** The scenarios of the specification and of the test suite *)

Example scenario_deposit :
  exists db',
    BankSystem.deposit fixture 1 "ACC001" 50000 (Some "Test deposit")
    = (true, db')
    /\ get_balance db' "ACC001" = Balance "ACC001" 150000
    /\ map Transaction.transaction_type (transactions db') = ["DEPOSIT"].
Proof. eexists. repeat split. Qed.

Example scenario_withdraw_too_much :
  withdraw fixture 1 "ACC001" (DepositWithdrawRequest.mk 200000 None)
  = (HTTPException 400 (InsufficientFunds 100000), fixture).
Proof. reflexivity. Qed.

Example scenario_transfer :
  fst (transfer fixture 1
         (TransferRequest.mk "ACC001" "ACC002" 30000 (Some "Test transfer")))
  = Transferred 30000 "ACC001" "ACC002" 70000 80000.
Proof. reflexivity. Qed.

Example scenario_withdraw_exact_balance :
  fst (withdraw fixture 1 "ACC001"
         (DepositWithdrawRequest.mk 100000 (Some "Withdraw all funds")))
  = Withdrew 100000 0.
Proof. reflexivity. Qed.

Example scenario_three_transfers :
  let bank :=
    serve_all fixture
      [ (1, PostTransfer (TransferRequest.mk "ACC001" "ACC002" 10000
                            (Some "Transfer")))
      ; (2, PostTransfer (TransferRequest.mk "ACC002" "ACC001" 5000
                            (Some "Transfer")))
      ; (3, PostTransfer (TransferRequest.mk "ACC001" "ACC002" 7500
                            (Some "Transfer"))) ] in
  get_balance bank "ACC001" = Balance "ACC001" 87500
  /\ get_balance bank "ACC002" = Balance "ACC002" 62500.
Proof. split; reflexivity. Qed.

Example scenario_same_account :
  transfer fixture 1 (TransferRequest.mk "ACC001" "ACC001" 10000 None)
  = (HTTPException 400 SameAccountTransfer, fixture)
  /\ BankSystem.transfer fixture 1 "ACC001" "ACC001" 10000 None
     = (false, fixture).
Proof. split; reflexivity. Qed.

Example scenario_history :
  map fst
    (map fst (map fst (map fst (map fst
       (BankSystem.get_transaction_history busy "ACC001" 5)))))
  = ["WITHDRAWAL"; "TRANSFER"; "DEPOSIT"].
Proof. reflexivity. Qed.

(** * Properties of the specification *)



(** C3 - Failed transfers are atomic.  With unique account numbers,
    [transfer] returns [False] when either account is missing and when
    [from_account]'s balance is below the amount, and whenever it returns
    [False] the database (both balances and the transaction log) is the one
    it started from.  For a validated request between two different
    accounts the endpoint reports a missing account as 404 and the shortfall
    as insufficient funds carrying [from_account]'s balance; every
    [HTTPException] it raises leaves the database unchanged. *)
Theorem failed_transfer_is_atomic :
  (forall (db : Database) (now : Z) (f t : string) (a : Z)
          (d : option string),
      fst (BankSystem.transfer db now f t a d) = false ->
      snd (BankSystem.transfer db now f t a d) = db)
  /\ (forall (db : Database) (now : Z) (f t : string) (a : Z)
             (d : option string),
        unique_numbers db ->
        (select_balance db f = None \/ select_balance db t = None ->
         BankSystem.transfer db now f t a d = (false, db))
        /\ (forall from_balance,
              select_balance db f = Some from_balance -> from_balance < a ->
              BankSystem.transfer db now f t a d = (false, db)))
  /\ (forall (bank : Database) (now : Z) (f t : string) (a : Z)
             (d : option string),
        unique_numbers bank -> 0 < a -> f <> t ->
        let request := TransferRequest.mk f t a d in
        (select_balance bank f = None ->
         transfer bank now request
         = (HTTPException 404 (SourceAccountNotFound f), bank))
        /\ (select_balance bank f <> None -> select_balance bank t = None ->
            transfer bank now request
            = (HTTPException 404 (DestinationAccountNotFound t), bank))
        /\ (forall from_balance,
              select_balance bank f = Some from_balance ->
              select_balance bank t <> None -> from_balance < a ->
              transfer bank now request
              = (HTTPException 400 (InsufficientFundsInSource from_balance),
                 bank)))
  /\ (forall (bank : Database) (now : Z) (request : TransferRequest.t)
             (status_code : Z) (detail : Detail),
        unique_numbers bank ->
        fst (transfer bank now request) = HTTPException status_code detail ->
        snd (transfer bank now request) = bank).
Proof.
  split; [exact transfer_false|]. split; [|split].
  - intros db now f t a d Hu. rewrite (transfer_unique _ _ _ _ _ _ Hu).
    split.
    + intros [-> | ->]; [reflexivity|].
      now destruct (select_balance db f).
    + intros fb -> Hlt. apply Z.ltb_lt in Hlt. rewrite Hlt, orb_true_r.
      now destruct (select_balance db t).
  - intros bank now f t a d Hu Ha Hneq request. unfold request.
    rewrite (transfer_endpoint _ _ _ Hu). simpl.
    apply Z.ltb_lt in Ha. apply String.eqb_neq in Hneq.
    rewrite Ha, Hneq. simpl. repeat split.
    + now intros ->.
    + intros Hf ->. now destruct (select_balance bank f).
    + intros fb -> Ht Hlt. apply Z.ltb_lt in Hlt. rewrite Hlt.
      now destruct (select_balance bank t).
  - intros bank now request status_code detail Hu.
    rewrite (transfer_endpoint _ _ _ Hu).
    destruct (negb _); [reflexivity|].
    destruct (String.eqb _ _); [reflexivity|].
    destruct (select_balance bank _) as [fb|]; [|reflexivity].
    destruct (select_balance bank _) as [tb|]; [|reflexivity].
    destruct (fb <? _); [reflexivity | discriminate].
Qed.

Lemma failed_transfer_is_atomic_witness :
  BankSystem.transfer fixture 1 "NONEXISTENT" "ACC002" 10000 None
  = (false, fixture)
  /\ BankSystem.transfer fixture 1 "ACC001" "ACC002" 500000 None
     = (false, fixture)
  /\ transfer fixture 1 (TransferRequest.mk "ACC001" "NONEXISTENT" 10000 None)
     = (HTTPException 404 (DestinationAccountNotFound "NONEXISTENT"), fixture)
  /\ transfer fixture 1 (TransferRequest.mk "ACC001" "ACC002" 500000 None)
     = (HTTPException 400 (InsufficientFundsInSource 100000), fixture)
  /\ snd (transfer fixture 1
            (TransferRequest.mk "NONEXISTENT1" "NONEXISTENT2" 10000 None))
     = fixture.
Proof.
  destruct failed_transfer_is_atomic as (_ & Hengine & Hendpoint & Hraise).
  split.
  { apply (Hengine fixture 1 "NONEXISTENT" "ACC002" 10000 None);
      [apply unique_fixture | left; reflexivity]. }
  split.
  { apply (Hengine fixture 1 "ACC001" "ACC002" 500000 None)
      with (from_balance := 100000);
      [apply unique_fixture | reflexivity | lia]. }
  split.
  { apply (Hendpoint fixture 1 "ACC001" "NONEXISTENT" 10000 None);
      [apply unique_fixture | lia | discriminate | discriminate
      | reflexivity]. }
  split.
  { apply (Hendpoint fixture 1 "ACC001" "ACC002" 500000 None);
      [apply unique_fixture | lia | discriminate | reflexivity
      | discriminate | lia]. }
  apply (Hraise fixture 1
           (TransferRequest.mk "NONEXISTENT1" "NONEXISTENT2" 10000 None)
           404 (SourceAccountNotFound "NONEXISTENT1"));
    [apply unique_fixture | reflexivity].
Defined.

(** C8 - Same-account transfer.  With unique account numbers, [transfer]
    with [from_account] equal to [to_account] returns [False] and hands
    back the database it was given: no transaction row, no balance
    change. *)
Theorem same_account_transfer_rejected :
  forall (db : Database) (now : Z) (n : string) (a : Z) (d : option string),
    unique_numbers db ->
    BankSystem.transfer db now n n a d = (false, db).
Proof.
  intros db now n a d Hu. rewrite (transfer_unique _ _ _ _ _ _ Hu).
  destruct (select_balance db n); [|reflexivity].
  now rewrite String.eqb_refl.
Qed.

Lemma same_account_transfer_rejected_witness :
  BankSystem.transfer fixture 1 "ACC001" "ACC001" 10000 (Some "Transfer")
  = (false, fixture).
Proof.
  apply (same_account_transfer_rejected fixture 1 "ACC001" 10000
           (Some "Transfer")).
  apply unique_fixture.
Defined.

(** ** What a failure tells the caller *)

(** C9, as stated, fails on the methods.  In the fixture, withdrawing
    2000.00 from an account that does not exist and from ACC001, which
    holds 1000.00, return the same value, and so do the two transfers: the
    methods answer a bare [False] that names no error kind and carries no
    balance. *)
Lemma method_failures_look_alike :
  select_balance fixture "NONEXISTENT" = None
  /\ select_balance fixture "ACC001" = Some 100000
  /\ BankSystem.withdraw fixture 1 "NONEXISTENT" 200000 None = (false, fixture)
  /\ BankSystem.withdraw fixture 1 "ACC001" 200000 None = (false, fixture)
  /\ ~ (fst (BankSystem.withdraw fixture 1 "NONEXISTENT" 200000 None)
        <> fst (BankSystem.withdraw fixture 1 "ACC001" 200000 None))
  /\ ~ (fst (BankSystem.transfer fixture 1 "NONEXISTENT" "ACC002" 200000 None)
        <> fst (BankSystem.transfer fixture 1 "ACC001" "ACC002" 200000 None)).
Proof.
  split; [reflexivity|]. split; [reflexivity|].
  split; [reflexivity|]. split; [reflexivity|].
  split; intros Hdiff; now apply Hdiff.
Qed.

(** C9, amended - Every error a method detects reaches its caller as the
    return value [False] with the database unchanged.  The typed outcome is
    made by the endpoint: for a validated request it answers 404 when an
    account is missing and 400 insufficient funds, carrying the balance it
    read before the call, when that balance is below the amount; the two
    answers differ. *)
Theorem errors_reach_the_caller :
  (forall (db : Database) (now : Z) (n : string) (a : Z) (d : option string),
      select_balance db n = None
      \/ (exists current, select_balance db n = Some current /\ current < a) ->
      BankSystem.withdraw db now n a d = (false, db))
  /\ (forall (db : Database) (now : Z) (f t : string) (a : Z)
             (d : option string),
        unique_numbers db ->
        select_balance db f = None \/ select_balance db t = None
        \/ (exists current, select_balance db f = Some current /\ current < a) ->
        BankSystem.transfer db now f t a d = (false, db))
  /\ (forall (bank : Database) (now : Z) (n : string) (a : Z)
             (d : option string),
        0 < a ->
        let request := DepositWithdrawRequest.mk a d in
        (select_balance bank n = None ->
         withdraw bank now n request
         = (HTTPException 404 AccountNotFound, bank))
        /\ (forall current,
              select_balance bank n = Some current -> current < a ->
              withdraw bank now n request
              = (HTTPException 400 (InsufficientFunds current), bank)))
  /\ (forall (bank : Database) (now : Z) (f t : string) (a : Z)
             (d : option string),
        unique_numbers bank -> 0 < a -> f <> t ->
        let request := TransferRequest.mk f t a d in
        (select_balance bank f = None ->
         transfer bank now request
         = (HTTPException 404 (SourceAccountNotFound f), bank))
        /\ (select_balance bank f <> None -> select_balance bank t = None ->
            transfer bank now request
            = (HTTPException 404 (DestinationAccountNotFound t), bank))
        /\ (forall current,
              select_balance bank f = Some current ->
              select_balance bank t <> None -> current < a ->
              transfer bank now request
              = (HTTPException 400 (InsufficientFundsInSource current),
                 bank)))
  /\ (forall (current : Z) (n : string),
        HTTPException 400 (InsufficientFunds current)
        <> HTTPException 404 AccountNotFound
        /\ HTTPException 400 (InsufficientFundsInSource current)
           <> HTTPException 404 (SourceAccountNotFound n)
        /\ HTTPException 400 (InsufficientFundsInSource current)
           <> HTTPException 404 (DestinationAccountNotFound n)).
Proof.
  split; [|split; [|split; [|split]]].
  - intros db now n a d Herr. unfold BankSystem.withdraw.
    destruct Herr as [-> | (current & -> & Hlt)]; [reflexivity|].
    apply Z.ltb_lt in Hlt. now rewrite Hlt.
  - intros db now f t a d Hu Herr. rewrite (transfer_unique _ _ _ _ _ _ Hu).
    destruct Herr as [-> | [-> | (current & -> & Hlt)]]; [reflexivity | |].
    + now destruct (select_balance db f).
    + apply Z.ltb_lt in Hlt. rewrite Hlt, orb_true_r.
      now destruct (select_balance db t).
  - intros bank now n a d Ha request. unfold request.
    rewrite withdraw_endpoint. simpl.
    apply Z.ltb_lt in Ha. rewrite Ha. simpl. split.
    + now intros ->.
    + intros current -> Hlt. apply Z.ltb_lt in Hlt. now rewrite Hlt.
  - intros bank now f t a d Hu Ha Hneq request. unfold request.
    rewrite (transfer_endpoint _ _ _ Hu). simpl.
    apply Z.ltb_lt in Ha. apply String.eqb_neq in Hneq.
    rewrite Ha, Hneq. simpl. repeat split.
    + now intros ->.
    + intros Hf ->. now destruct (select_balance bank f).
    + intros current -> Ht Hlt. apply Z.ltb_lt in Hlt. rewrite Hlt.
      now destruct (select_balance bank t).
  - intros current n. repeat split; discriminate.
Qed.

Lemma errors_reach_the_caller_witness :
  BankSystem.withdraw fixture 1 "NONEXISTENT" 10000 None = (false, fixture)
  /\ BankSystem.transfer fixture 1 "ACC001" "ACC002" 500000 None
     = (false, fixture)
  /\ withdraw fixture 1 "NONEXISTENT" (DepositWithdrawRequest.mk 10000 None)
     = (HTTPException 404 AccountNotFound, fixture)
  /\ withdraw fixture 1 "ACC001" (DepositWithdrawRequest.mk 200000 None)
     = (HTTPException 400 (InsufficientFunds 100000), fixture)
  /\ transfer fixture 1 (TransferRequest.mk "NONEXISTENT" "ACC002" 10000 None)
     = (HTTPException 404 (SourceAccountNotFound "NONEXISTENT"), fixture).
Proof.
  destruct errors_reach_the_caller as (Hw & Ht & Hew & Het & _).
  split.
  { apply Hw. left. reflexivity. }
  split.
  { apply Ht; [apply unique_fixture|].
    right. right. exists 100000. split; [reflexivity | lia]. }
  split.
  { apply (Hew fixture 1 "NONEXISTENT" 10000 None); [lia | reflexivity]. }
  split.
  { apply (Hew fixture 1 "ACC001" 200000 None); [lia | reflexivity | lia]. }
  apply (Het fixture 1 "NONEXISTENT" "ACC002" 10000 None);
    [apply unique_fixture | lia | discriminate | reflexivity].
Defined.

(** * Further properties of the code *)

(** ** The reads *)

Lemma get_account_find (db : Database) (n : string) :
  BankSystem.get_account db n = None
  <-> find (has_number n) (accounts db) = None.
Proof.
  unfold BankSystem.get_account.
  destruct (find (has_number n) (accounts db)); simpl; split; congruence.
Qed.

(** ** The rows [deposit] and [withdraw] append *)

Lemma transactions_deposit (db : Database) (now : Z) (n : string) (a : Z)
    (d : option string) (current : Z) :
  select_balance db n = Some current ->
  transactions (snd (BankSystem.deposit db now n a d))
  = (transactions db ++
       [Transaction.mk (next_id (transactions db)) None (Some n) "DEPOSIT"
          a d now])%list.
Proof. unfold BankSystem.deposit. now intros ->. Qed.

Lemma transactions_withdraw (db : Database) (now : Z) (n : string) (a : Z)
    (d : option string) (current : Z) :
  select_balance db n = Some current -> (current <? a) = false ->
  transactions (snd (BankSystem.withdraw db now n a d))
  = (transactions db ++
       [Transaction.mk (next_id (transactions db)) (Some n) None "WITHDRAWAL"
          a d now])%list.
Proof. unfold BankSystem.withdraw. now intros -> ->. Qed.

(** ** What a call does to the log and to the accounts *)

Lemma total_balance_insert (now : Z) (fa ta : option string) (ty : string)
    (a : Z) (d : option string) (db : Database) :
  total_balance (insert_transaction now fa ta ty a d db) = total_balance db.
Proof. reflexivity. Qed.

(** A call either appends nothing to the log (and, unless it creates an
    account, changes nothing at all), or returns [True] and appends one
    well-formed row that accounts for the change of the total. *)
Lemma call_step (db : Database) (now : Z) (c : Call) :
  unique_numbers db ->
  (transactions (snd (call db now c)) = transactions db
   /\ (is_create c = false -> snd (call db now c) = db))
  \/ (exists record : Transaction.t,
        transactions (snd (call db now c))
        = (transactions db ++ [record])%list
        /\ fst (call db now c) = true
        /\ is_create c = false
        /\ Transaction.timestamp record = now
        /\ well_formed_row record
        /\ (in_bounds c -> 0 < Transaction.amount record)
        /\ total_balance (snd (call db now c))
           = total_balance db + signed_amount record).
Proof.
  intros Hu. destruct c as [n h b|n a d|n a d|f t a d]; simpl.
  - left. unfold BankSystem.create_account.
    destruct (existsb _ _); simpl; split; (reflexivity || discriminate).
  - unfold BankSystem.deposit.
    destruct (select_balance db n) as [cur|] eqn:Hsel; [right | now left].
    cbv zeta. cbn [fst snd]. eexists. split; [reflexivity|].
    repeat split; try (simpl; tauto).
    + left. simpl. eauto.
    + rewrite total_balance_insert, (total_balance_update _ _ _ Hu), Hsel.
      unfold signed_amount. simpl. lia.
  - unfold BankSystem.withdraw.
    destruct (select_balance db n) as [cur|] eqn:Hsel; [|now left].
    destruct (cur <? a); [now left | right].
    cbv zeta. cbn [fst snd]. eexists. split; [reflexivity|].
    repeat split; try (simpl; tauto).
    + right. left. simpl. eauto.
    + rewrite total_balance_insert, (total_balance_update _ _ _ Hu), Hsel.
      unfold signed_amount. simpl. lia.
  - rewrite (transfer_unique _ _ _ _ _ _ Hu).
    destruct (select_balance db f) as [fb|] eqn:Hf; [|now left].
    destruct (select_balance db t) as [tb|] eqn:Ht; [|now left].
    destruct (String.eqb f t) eqn:Heq; [now left|].
    destruct (fb <? a); simpl; [now left | right].
    apply String.eqb_neq in Heq.
    eexists. split; [reflexivity|].
    repeat split; try (simpl; tauto).
    + right. right. simpl. eauto 6.
    + rewrite (total_balance_after_transfer _ _ _ _ _ _ _ _ Hu Heq Hf Ht).
      unfold signed_amount. simpl. lia.
Qed.

(** The requests of a sequence commit the calls of some sequence that is
    not longer and within bounds. *)
Lemma serve_all_as_run (requests : list (Z * Request)) (bank : Database) :
  exists calls : list (Z * Call),
    serve_all bank requests = run bank calls
    /\ Forall (fun c => in_bounds (snd c)) calls
    /\ (List.length calls <= List.length requests)%nat.
Proof.
  revert bank. induction requests as [|[now r] requests IH]; simpl;
    intros bank.
  - exists []. split; [reflexivity|]. split; [constructor | simpl; lia].
  - destruct (serve_is_call bank now r) as [->|(c & Hb & ->)].
    + destruct (IH bank) as (calls & Hrun & Hall & Hlen).
      exists calls. split; [exact Hrun|]. split; [exact Hall | lia].
    + destruct (IH (snd (call bank now c))) as (calls & Hrun & Hall & Hlen).
      exists ((now, c) :: calls). simpl.
      split; [exact Hrun|]. split; [now constructor | lia].
Qed.

Lemma identity_update (f : Z -> Z) (n : string) (db : Database) :
  map account_identity (accounts (update_balance f n db))
  = map account_identity (accounts db).
Proof.
  unfold update_balance; simpl. rewrite map_map. apply map_ext.
  intros r. now destruct (has_number n r).
Qed.

Lemma accounts_insert (now : Z) (fa ta : option string) (ty : string)
    (a : Z) (d : option string) (db : Database) :
  accounts (insert_transaction now fa ta ty a d db) = accounts db.
Proof. reflexivity. Qed.

Lemma call_keeps_rows (db : Database) (now : Z) (c : Call) :
  exists (new_rows : list Transaction.t)
         (new_accounts : list (Z * string * string * Z)),
    transactions (snd (call db now c)) = (transactions db ++ new_rows)%list
    /\ map account_identity (accounts (snd (call db now c)))
       = (map account_identity (accounts db) ++ new_accounts)%list
    /\ (List.length new_rows <= 1)%nat
    /\ (List.length new_accounts <= 1)%nat.
Proof.
  assert (Hsame : exists (new_rows : list Transaction.t)
                         (new_accounts : list (Z * string * string * Z)),
             transactions db = (transactions db ++ new_rows)%list
             /\ map account_identity (accounts db)
                = (map account_identity (accounts db) ++ new_accounts)%list
             /\ (List.length new_rows <= 1)%nat
             /\ (List.length new_accounts <= 1)%nat).
  { exists [], []. rewrite !app_nil_r. simpl. repeat split; lia. }
  destruct c as [n h b|n a d|n a d|f t a d]; simpl.
  - unfold BankSystem.create_account.
    destruct (existsb _ _); [exact Hsame|]. simpl.
    exists [], [(next_id (accounts db), n, h, now)].
    rewrite app_nil_r, map_app. simpl. repeat split; lia.
  - unfold BankSystem.deposit.
    destruct (select_balance db n) as [cur|]; [|exact Hsame].
    cbv zeta. cbn [snd]. eexists. exists [].
    split; [reflexivity|].
    rewrite accounts_insert, identity_update, app_nil_r. simpl.
    repeat split; lia.
  - unfold BankSystem.withdraw.
    destruct (select_balance db n) as [cur|]; [|exact Hsame].
    destruct (cur <? a); [exact Hsame|].
    cbv zeta. cbn [snd]. eexists. exists [].
    split; [reflexivity|].
    rewrite accounts_insert, identity_update, app_nil_r. simpl.
    repeat split; lia.
  - unfold BankSystem.transfer.
    destruct (negb _); [exact Hsame|].
    destruct (dict_get _ _) as [fb|]; [|exact Hsame].
    destruct (fb <? a); [exact Hsame|].
    cbv zeta. cbn [snd]. eexists. exists [].
    split; [reflexivity|].
    rewrite accounts_insert, !identity_update, app_nil_r. simpl.
    repeat split; lia.
Qed.

(** X9 - Nothing is deleted or rewritten.  After any sequence of method
    calls, and after any sequence of requests, the tables hold the old
    transaction rows, unchanged, followed by the new ones, and the old
    accounts, each with the id, number, holder and creation time it had,
    followed by the new ones; at most one row and one account are added
    per call. *)
Theorem nothing_is_deleted :
  (forall (calls : list (Z * Call)) (db : Database),
      exists (new_rows : list Transaction.t)
             (new_accounts : list (Z * string * string * Z)),
        transactions (run db calls) = (transactions db ++ new_rows)%list
        /\ map account_identity (accounts (run db calls))
           = (map account_identity (accounts db) ++ new_accounts)%list
        /\ (List.length new_rows <= List.length calls)%nat
        /\ (List.length new_accounts <= List.length calls)%nat)
  /\ (forall (requests : list (Z * Request)) (bank : Database),
        exists (new_rows : list Transaction.t)
               (new_accounts : list (Z * string * string * Z)),
          transactions (serve_all bank requests)
          = (transactions bank ++ new_rows)%list
          /\ map account_identity (accounts (serve_all bank requests))
             = (map account_identity (accounts bank) ++ new_accounts)%list
          /\ (List.length new_rows <= List.length requests)%nat
          /\ (List.length new_accounts <= List.length requests)%nat).
Proof.
  assert (Hrun : forall (calls : list (Z * Call)) (db : Database),
      exists (new_rows : list Transaction.t)
             (new_accounts : list (Z * string * string * Z)),
        transactions (run db calls) = (transactions db ++ new_rows)%list
        /\ map account_identity (accounts (run db calls))
           = (map account_identity (accounts db) ++ new_accounts)%list
        /\ (List.length new_rows <= List.length calls)%nat
        /\ (List.length new_accounts <= List.length calls)%nat).
  { induction calls as [|[now c] calls IH]; simpl; intros db.
    - exists [], []. rewrite !app_nil_r. simpl. repeat split; lia.
    - destruct (call_keeps_rows db now c) as (r1 & a1 & Hr1 & Ha1 & Hl1 & Hm1).
      destruct (IH (snd (call db now c))) as (r2 & a2 & Hr2 & Ha2 & Hl2 & Hm2).
      exists (r1 ++ r2)%list, (a1 ++ a2)%list.
      rewrite Hr2, Ha2, Hr1, Ha1, <- !app_assoc, !length_app.
      repeat split; lia. }
  split; [exact Hrun|].
  intros requests bank.
  destruct (serve_all_as_run requests bank) as (calls & -> & _ & Hlen).
  destruct (Hrun calls bank) as (r & a & Hr & Ha & Hl & Hm).
  exists r, a. repeat split; try assumption; lia.
Qed.

(** X10 - The shape of the log.  With unique account numbers the methods
    only add well-formed rows: a DEPOSIT with [to_account] set and
    [from_account] NULL, a WITHDRAWAL with [from_account] set and
    [to_account] NULL, or a TRANSFER with both set and different.  In a
    database built from the empty one by requests to the endpoints every
    row is well-formed and has a positive amount. *)
Theorem log_rows_well_formed :
  (forall (calls : list (Z * Call)) (db : Database),
      unique_numbers db ->
      Forall well_formed_row (transactions db) ->
      Forall well_formed_row (transactions (run db calls)))
  /\ (forall requests : list (Z * Request),
        Forall (fun t => well_formed_row t /\ 0 < Transaction.amount t)
               (transactions (serve_all empty_database requests))).
Proof.
  assert (Hrun : forall (calls : list (Z * Call)) (db : Database)
                        (P : Transaction.t -> Prop),
             (forall t, P t -> well_formed_row t) ->
             (forall now c record,
                 In (now, c) calls -> well_formed_row record ->
                 (in_bounds c -> 0 < Transaction.amount record) ->
                 P record) ->
             unique_numbers db ->
             Forall P (transactions db) ->
             Forall P (transactions (run db calls))).
  { induction calls as [|[now c] calls IH]; simpl;
      intros db P Hwf Hnew Hu Hall; [exact Hall|].
    apply IH; [exact Hwf | | now apply unique_call |].
    - intros now' c' record Hin. apply (Hnew now' c' record). now right.
    - destruct (call_step db now c Hu)
        as [[-> _] | (record & -> & _ & _ & _ & Hshape & Hpos & _)];
        [exact Hall|].
      apply Forall_app. split; [exact Hall|].
      constructor; [|constructor].
      apply (Hnew now c record); [now left | assumption..]. }
  split.
  - intros calls db Hu Hall.
    apply (Hrun calls db well_formed_row); auto.
  - intros requests.
    destruct (serve_all_as_run requests empty_database)
      as (calls & -> & Hb & _).
    apply (Hrun calls empty_database
             (fun t => well_formed_row t /\ 0 < Transaction.amount t)).
    + tauto.
    + intros now c record Hin Hshape Hpos. split; [exact Hshape|].
      apply Hpos. rewrite Forall_forall in Hb. apply (Hb (now, c) Hin).
    + constructor.
    + constructor.
Qed.

Lemma log_rows_well_formed_witness :
  Forall well_formed_row (transactions busy).
Proof.
  apply (proj1 log_rows_well_formed
           [ (5, Deposit "ACC001" 20000 (Some "Test deposit"))
           ; (7, Withdraw "ACC001" 10000 (Some "Test withdrawal"))
           ; (6, Transfer "ACC001" "ACC002" 15000 (Some "Test transfer"))
           ; (8, Deposit "ACC002" 100 None) ] fixture).
  - apply unique_fixture.
  - constructor.
Defined.

(** X11 - Logged accounts exist.  In a database built from the empty one
    by method calls or by requests, every account number that stands in
    the [from_account] or [to_account] column of a transaction is the
    number of an account that [get_account] finds. *)
Theorem logged_accounts_exist :
  (forall (calls : list (Z * Call)) (t : Transaction.t) (n : string),
      In t (transactions (run empty_database calls)) ->
      Transaction.from_account t = Some n
      \/ Transaction.to_account t = Some n ->
      BankSystem.get_account (run empty_database calls) n <> None)
  /\ (forall (requests : list (Z * Request)) (t : Transaction.t) (n : string),
        In t (transactions (serve_all empty_database requests)) ->
        Transaction.from_account t = Some n
        \/ Transaction.to_account t = Some n ->
        BankSystem.get_account (serve_all empty_database requests) n <> None).
Proof.
  assert (Hrun : forall (calls : list (Z * Call)) (t : Transaction.t)
                        (n : string),
      In t (transactions (run empty_database calls)) ->
      Transaction.from_account t = Some n
      \/ Transaction.to_account t = Some n ->
      BankSystem.get_account (run empty_database calls) n <> None).
  { intros calls t n Hin Hcol Hnone.
    destruct (consistent_reachable calls) as [_ Hrefs].
    unfold references_hold in Hrefs. rewrite Forall_forall in Hrefs.
    destruct (Hrefs t Hin) as [Hf Ht].
    assert (Hn : In n (account_numbers (run empty_database calls))).
    { destruct Hcol as [Heq|Heq]; rewrite Heq in *; assumption. }
    apply get_account_find in Hnone.
    apply find_number_present in Hn as [r Hr].
    unfold account_numbers in Hr. congruence. }
  split; [exact Hrun|].
  intros requests.
  destruct (serve_all_as_run requests empty_database) as (calls & -> & _).
  apply Hrun.
Qed.

Lemma logged_accounts_exist_witness :
  BankSystem.get_account busy "ACC002" <> None.
Proof.
  apply (proj1 logged_accounts_exist
           [ (0, CreateAccount "ACC001" "John Doe" 100000)
           ; (0, CreateAccount "ACC002" "Jane Smith" 50000)
           ; (5, Deposit "ACC001" 20000 (Some "Test deposit"))
           ; (7, Withdraw "ACC001" 10000 (Some "Test withdrawal"))
           ; (6, Transfer "ACC001" "ACC002" 15000 (Some "Test transfer"))
           ; (8, Deposit "ACC002" 100 None) ]
           (Transaction.mk 3 (Some "ACC001") (Some "ACC002") "TRANSFER" 15000
              (Some "Test transfer") 6)
           "ACC002").
  - simpl. right. right. left. reflexivity.
  - right. reflexivity.
Defined.

(** ** Isolation *)

Lemma filter_snoc_out {A : Type} (p : A -> bool) (l : list A) (x : A) :
  p x = false -> filter p (l ++ [x]) = filter p l.
Proof.
  intros Hp. rewrite filter_app. simpl. rewrite Hp. apply app_nil_r.
Qed.


Lemma history_same_log (db db' : Database) (m : string) (limit : Z) :
  filter (BankSystem.involves m) (transactions db')
  = filter (BankSystem.involves m) (transactions db) ->
  BankSystem.get_transaction_history db' m limit
  = BankSystem.get_transaction_history db m limit.
Proof.
  unfold BankSystem.get_transaction_history. now intros ->.
Qed.

(** X12 - Isolation.  A method call never changes the balance of an
    account whose number it was not given, nor what [get_account] returns
    for it, nor its transaction history, whatever the limit. *)
Theorem unnamed_accounts_untouched :
  forall (db : Database) (now : Z) (c : Call) (m : string),
    names c m = false ->
    select_balance (snd (call db now c)) m = select_balance db m
    /\ BankSystem.get_account (snd (call db now c)) m
       = BankSystem.get_account db m
    /\ forall limit,
         BankSystem.get_transaction_history (snd (call db now c)) m limit
         = BankSystem.get_transaction_history db m limit.
Proof.
  intros db now c m Hm.
  assert (Hupd : forall (f : Z -> Z) (n : string) (db0 : Database),
             String.eqb m n = false ->
             find (has_number m) (accounts (update_balance f n db0))
             = find (has_number m) (accounts db0)).
  { intros f n db0 Hneq. unfold update_balance. simpl.
    induction (accounts db0) as [|r rows IH]; simpl; [reflexivity|].
    destruct (has_number n r) eqn:Hn.
    - rewrite has_number_set_balance.
      destruct (has_number m r) eqn:Hr; [|exact IH].
      apply has_number_iff in Hn, Hr. apply String.eqb_neq in Hneq.
      congruence.
    - destruct (has_number m r); [reflexivity | exact IH]. }
  assert (Hfind : find (has_number m) (accounts (snd (call db now c)))
                  = find (has_number m) (accounts db)
                  /\ filter (BankSystem.involves m)
                            (transactions (snd (call db now c)))
                     = filter (BankSystem.involves m) (transactions db)).
  { destruct c as [n h b|n a d|n a d|f t a d]; simpl in Hm |- *.
    - unfold BankSystem.create_account.
      destruct (existsb _ _); simpl; [now split|].
      split; [|reflexivity]. rewrite find_app.
      destruct (find (has_number m) (accounts db)); [reflexivity|]. simpl.
      unfold has_number. simpl. rewrite String.eqb_sym. now rewrite Hm.
    - unfold BankSystem.deposit.
      destruct (select_balance db n); [|now split].
      cbv zeta. cbn [snd]. split.
      + now rewrite accounts_insert, Hupd.
      + apply filter_snoc_out. unfold BankSystem.involves. simpl.
        rewrite String.eqb_sym. exact Hm.
    - unfold BankSystem.withdraw.
      destruct (select_balance db n) as [cur|]; [|now split].
      destruct (cur <? a); [now split|].
      cbv zeta. cbn [snd]. split.
      + now rewrite accounts_insert, Hupd.
      + apply filter_snoc_out. unfold BankSystem.involves. simpl.
        rewrite orb_false_r, String.eqb_sym. exact Hm.
    - apply orb_false_iff in Hm as [Hf Ht].
      unfold BankSystem.transfer.
      destruct (negb _); [now split|].
      destruct (dict_get _ _) as [fb|]; [|now split].
      destruct (fb <? a); [now split|].
      cbv zeta. cbn [snd]. split.
      + now rewrite accounts_insert, !Hupd.
      + apply filter_snoc_out. unfold BankSystem.involves. simpl.
        rewrite (String.eqb_sym f m), (String.eqb_sym t m), Hf, Ht.
        reflexivity. }
  destruct Hfind as [Hacc Hlog].
  split; [unfold select_balance; now rewrite Hacc|].
  split; [unfold BankSystem.get_account; now rewrite Hacc|].
  intros limit. now apply history_same_log.
Qed.

Lemma unnamed_accounts_untouched_witness :
  select_balance
    (snd (call fixture 1 (Transfer "ACC001" "NONEXISTENT" 100 None))) "ACC002"
  = select_balance fixture "ACC002".
Proof.
  apply (unnamed_accounts_untouched fixture 1
           (Transfer "ACC001" "NONEXISTENT" 100 None) "ACC002").
  reflexivity.
Defined.

(** ** Histories *)





(** ** The read endpoints *)

(** X14 - The reads agree.  With unique account numbers, [get_account]
    answers with an account exactly when the list of [get_all_accounts]
    holds an entry with that number, and the answer is that entry;
    [get_balance] then reports the balance of the same entry.  Both
    endpoints answer 404 for the same account numbers. *)
Theorem reads_agree :
  forall (bank : Database) (n : string),
    unique_numbers bank ->
    (forall r : AccountResponse.t,
        get_account bank n = Body r
        <-> In r (get_all_accounts bank)
            /\ AccountResponse.account_number r = n)
    /\ (forall r : AccountResponse.t,
          get_account bank n = Body r ->
          get_balance bank n = Balance n (AccountResponse.balance r))
    /\ (get_account bank n = Raised 404 AccountNotFound
        <-> get_balance bank n = HTTPException 404 AccountNotFound).
Proof.
  intros bank n Hu.
  unfold get_account, get_balance, get_all_accounts,
    BankSystem.get_account, BankSystem.get_all_accounts.
  rewrite map_map.
  destruct (find (has_number n) (accounts bank)) as [row|] eqn:Hfind; simpl.
  - split; [|split].
    + intros r. split.
      * intros [= <-]. apply find_number_some in Hfind as [Hin Hn].
        split; [|exact Hn].
        apply in_map_iff. exists row. now split.
      * intros [Hin Hn]. apply in_map_iff in Hin as (row' & <- & Hin).
        simpl in Hn.
        now rewrite (unique_row n (accounts bank) row row' Hu Hfind Hin Hn).
    + now intros r [= <-].
    + split; discriminate.
  - split; [|split].
    + intros r. split; [discriminate|].
      intros [Hin Hn]. apply in_map_iff in Hin as (row' & <- & Hin).
      simpl in Hn. exfalso.
      assert (Hex : In n (map Account.account_number (accounts bank)))
        by (apply in_map_iff; eauto).
      apply find_number_present in Hex as [r Hr]. congruence.
    + discriminate.
    + split; reflexivity.
Qed.

Lemma reads_agree_witness :
  get_account fixture "ACC002"
  = Body (AccountResponse.mk "ACC002" "Jane Smith" 50000 0)
  <-> In (AccountResponse.mk "ACC002" "Jane Smith" 50000 0)
         (get_all_accounts fixture)
      /\ AccountResponse.account_number
           (AccountResponse.mk "ACC002" "Jane Smith" 50000 0) = "ACC002".
Proof.
  apply (reads_agree fixture "ACC002"). apply unique_fixture.
Defined.

(** ** Descriptions *)

Lemma description_or_set (description : option string) (default : string) :
  default <> "" ->
  description_or description default <> None
  /\ description_or description default <> Some "".
Proof.
  intros Hdefault. unfold description_or.
  destruct description as [d|].
  - destruct (String.eqb d "") eqn:Heq.
    + split; congruence.
    + apply String.eqb_neq in Heq. split; congruence.
  - split; congruence.
Qed.

(** X15 - Recorded descriptions.  A deposit or a withdrawal that succeeds
    through its endpoint appends one row whose description is the
    request's, or "Deposit" / "Withdrawal" when the request has none or an
    empty one; the recorded description is never NULL and never empty. *)
Theorem endpoint_descriptions :
  forall (bank : Database) (now : Z) (n : string)
         (request : DepositWithdrawRequest.t),
    (succeeded (fst (deposit bank now n request)) = true ->
     exists record : Transaction.t,
       transactions (snd (deposit bank now n request))
       = (transactions bank ++ [record])%list
       /\ Transaction.description record
          = description_or (DepositWithdrawRequest.description request)
              "Deposit"
       /\ Transaction.description record <> None
       /\ Transaction.description record <> Some "")
    /\ (succeeded (fst (withdraw bank now n request)) = true ->
        exists record : Transaction.t,
          transactions (snd (withdraw bank now n request))
          = (transactions bank ++ [record])%list
          /\ Transaction.description record
             = description_or (DepositWithdrawRequest.description request)
                 "Withdrawal"
          /\ Transaction.description record <> None
          /\ Transaction.description record <> Some "").
Proof.
  intros bank now n request. split.
  - rewrite deposit_endpoint.
    destruct (negb _); [discriminate|].
    destruct (select_balance bank n) as [cur|] eqn:Hsel; [|discriminate].
    intros _. cbn [snd]. rewrite (transactions_deposit _ _ _ _ _ _ Hsel).
    eexists. split; [reflexivity|]. simpl.
    split; [reflexivity|]. now apply description_or_set.
  - rewrite withdraw_endpoint.
    destruct (negb _); [discriminate|].
    destruct (select_balance bank n) as [cur|] eqn:Hsel; [|discriminate].
    destruct (cur <? _) eqn:Hlt; [discriminate|].
    intros _. cbn [snd].
    rewrite (transactions_withdraw _ _ _ _ _ _ Hsel Hlt).
    eexists. split; [reflexivity|]. simpl.
    split; [reflexivity|]. now apply description_or_set.
Qed.

Lemma endpoint_descriptions_witness :
  exists record : Transaction.t,
    transactions
      (snd (deposit fixture 1 "ACC001"
              (DepositWithdrawRequest.mk 1000 (Some ""))))
    = (transactions fixture ++ [record])%list
    /\ Transaction.description record = Some "Deposit".
Proof.
  destruct (endpoint_descriptions fixture 1 "ACC001"
              (DepositWithdrawRequest.mk 1000 (Some ""))) as [Hdep _].
  destruct (Hdep eq_refl) as (record & Hlog & Hdesc & _).
  exists record. split; assumption.
Defined.

(** X16 - Account numbers stay unique.  In a database built from the empty
    one by any sequence of method calls, or of requests, no two entries of
    [get_all_accounts] have the same account number. *)
Theorem account_numbers_stay_unique :
  (forall calls : list (Z * Call),
      NoDup (map (fun account : string * string * Z * Z =>
                    fst (fst (fst account)))
                 (BankSystem.get_all_accounts (run empty_database calls))))
  /\ (forall requests : list (Z * Request),
        NoDup (map AccountResponse.account_number
                   (get_all_accounts (serve_all empty_database requests)))).
Proof.
  assert (Hrun : forall calls : list (Z * Call),
             unique_numbers (run empty_database calls)).
  { intros calls. generalize empty_database (proj1 consistent_empty).
    induction calls as [|[now c] calls IH]; simpl; intros db Hu;
      [exact Hu|].
    apply IH. now apply unique_call. }
  split.
  - intros calls. unfold BankSystem.get_all_accounts. rewrite map_map.
    exact (Hrun calls).
  - intros requests.
    destruct (serve_all_as_run requests empty_database) as (calls & -> & _).
    unfold get_all_accounts, BankSystem.get_all_accounts.
    rewrite !map_map. exact (Hrun calls).
Qed.

(** * The program on binary64 amounts: proofs *)

(** ** Rows of [accounts] *)

Lemma f64_has_number_iff (n : string) (r : Float64.Account.t) :
  Float64.has_number n r = true <-> Float64.Account.account_number r = n.
Proof. unfold Float64.has_number. apply String.eqb_eq. Qed.

Lemma f64_find_absent (n : string) (rows : list Float64.Account.t) :
  ~ In n (map Float64.Account.account_number rows) ->
  find (Float64.has_number n) rows = None.
Proof.
  induction rows as [|r rows IH]; simpl; intros Hnot; [reflexivity|].
  destruct (Float64.has_number n r) eqn:Hr.
  - apply f64_has_number_iff in Hr. tauto.
  - apply IH. tauto.
Qed.

Lemma f64_find_present (n : string) (rows : list Float64.Account.t) :
  In n (map Float64.Account.account_number rows) ->
  exists r, find (Float64.has_number n) rows = Some r.
Proof.
  induction rows as [|r rows IH]; simpl; intros Hin; [contradiction|].
  destruct (Float64.has_number n r) eqn:Hr; [eauto|].
  destruct Hin as [Heq|Hin]; [|auto].
  apply f64_has_number_iff in Heq. congruence.
Qed.

Lemma f64_find_some (n : string) (rows : list Float64.Account.t)
    (r : Float64.Account.t) :
  find (Float64.has_number n) rows = Some r ->
  In r rows /\ Float64.Account.account_number r = n.
Proof.
  intros H. apply find_some in H. now rewrite f64_has_number_iff in H.
Qed.

Lemma f64_filter_unique (n : string) (rows : list Float64.Account.t) :
  NoDup (map Float64.Account.account_number rows) ->
  filter (Float64.has_number n) rows =
  match find (Float64.has_number n) rows with
  | Some r => [r]
  | None => []
  end.
Proof.
  induction rows as [|r rows IH]; simpl; intros Hnd; [reflexivity|].
  inversion Hnd as [|? ? Hnotin Hnd']; subst.
  destruct (Float64.has_number n r) eqn:Hr.
  - apply f64_has_number_iff in Hr. rewrite <- Hr.
    now rewrite (find_none_filter _ _ (f64_find_absent _ _ Hnotin)).
  - auto.
Qed.

Lemma f64_find_rev (n : string) (rows : list Float64.Account.t) :
  NoDup (map Float64.Account.account_number rows) ->
  find (Float64.has_number n) (rev rows) = find (Float64.has_number n) rows.
Proof.
  induction rows as [|r rows IH]; simpl; intros Hnd; [reflexivity|].
  inversion Hnd as [|? ? Hnotin Hnd']; subst.
  rewrite find_app, (IH Hnd'). simpl.
  destruct (Float64.has_number n r) eqn:Hr.
  - apply f64_has_number_iff in Hr. rewrite <- Hr.
    now rewrite (f64_find_absent _ _ Hnotin).
  - now destruct (find (Float64.has_number n) rows).
Qed.

Lemma f64_NoDup_filter (q : Float64.Account.t -> bool)
    (rows : list Float64.Account.t) :
  NoDup (map Float64.Account.account_number rows) ->
  NoDup (map Float64.Account.account_number (filter q rows)).
Proof.
  induction rows as [|r rows IH]; simpl; intros Hnd; [constructor|].
  inversion Hnd as [|? ? Hnotin Hnd']; subst.
  destruct (q r); simpl; [|auto].
  constructor; [|auto].
  intros Hin. apply Hnotin.
  apply in_map_iff in Hin as (x & Hx & Hin).
  apply filter_In in Hin. apply in_map_iff. exists x. tauto.
Qed.

Lemma f64_select_names (db : Float64.Database) (n : string) (b : float) :
  Float64.select_balance db n = Some b -> In n (Float64.account_numbers db).
Proof.
  unfold Float64.select_balance, Float64.account_numbers. intros H.
  destruct (find (Float64.has_number n) (Float64.accounts db)) as [r|]
    eqn:Hfind; [|discriminate].
  apply f64_find_some in Hfind as [Hin <-]. now apply in_map.
Qed.

Lemma f64_select_absent (db : Float64.Database) (n : string) :
  Float64.select_balance db n = None <-> ~ In n (Float64.account_numbers db).
Proof.
  unfold Float64.select_balance, Float64.account_numbers. split.
  - intros H Hin. apply f64_find_present in Hin as [r Hr].
    now rewrite Hr in H.
  - intros H. now rewrite (f64_find_absent _ _ H).
Qed.

Lemma f64_get_account_balance (db : Float64.Database) (n : string) :
  option_map Float64.balance_column (Float64.BankSystem.get_account db n)
  = Float64.select_balance db n.
Proof.
  unfold Float64.BankSystem.get_account, Float64.select_balance.
  now destruct (find (Float64.has_number n) (Float64.accounts db)).
Qed.

(** ** The UPDATE and the INSERT *)

Lemma f64_update_rows_numbers (f : float -> float) (n : string)
    (rows rows' : list Float64.Account.t) :
  Float64.update_rows f n rows = Some rows' ->
  map Float64.Account.account_number rows'
  = map Float64.Account.account_number rows.
Proof.
  revert rows'. induction rows as [|r rows IH]; simpl; intros rows'.
  - now intros [= <-].
  - destruct (Float64.has_number n r).
    + destruct (Float64.stored _) as [b|]; [|discriminate].
      destruct (Float64.update_rows f n rows) as [rest|]; [|discriminate].
      intros [= <-]. simpl. now rewrite (IH rest eq_refl).
    + destruct (Float64.update_rows f n rows) as [rest|]; [|discriminate].
      intros [= <-]. simpl. now rewrite (IH rest eq_refl).
Qed.

(** What [SELECT balance] reads after an UPDATE that went through. *)
Lemma f64_update_rows_select (f : float -> float) (n m : string)
    (rows rows' : list Float64.Account.t) :
  Float64.update_rows f n rows = Some rows' ->
  option_map Float64.Account.balance (find (Float64.has_number m) rows')
  = match option_map Float64.Account.balance
            (find (Float64.has_number m) rows) with
    | None => None
    | Some b => if String.eqb m n then Float64.stored (f b) else Some b
    end.
Proof.
  revert rows'. induction rows as [|r rows IH]; simpl; intros rows'.
  - now intros [= <-].
  - destruct (Float64.has_number n r) eqn:Hn.
    + destruct (Float64.stored (f (Float64.Account.balance r))) as [b|]
        eqn:Hb; [|discriminate].
      destruct (Float64.update_rows f n rows) as [rest|]; [|discriminate].
      intros [= <-]. simpl.
      change (Float64.has_number m (Float64.Account.set_balance b r))
        with (Float64.has_number m r).
      destruct (Float64.has_number m r) eqn:Hm; [|now apply IH]. simpl.
      apply f64_has_number_iff in Hn, Hm.
      assert (String.eqb m n = true) as ->
          by (apply String.eqb_eq; congruence).
      now rewrite Hb.
    + destruct (Float64.update_rows f n rows) as [rest|]; [|discriminate].
      intros [= <-]. simpl.
      destruct (Float64.has_number m r) eqn:Hm; [|now apply IH]. simpl.
      destruct (String.eqb m n) eqn:Heq; [|reflexivity].
      apply String.eqb_eq in Heq. subst m. congruence.
Qed.

Lemma f64_update_rows_total (f : float -> float) (n : string)
    (rows rows' : list Float64.Account.t) :
  NoDup (map Float64.Account.account_number rows) ->
  Float64.update_rows f n rows = Some rows' ->
  fold_right Z.add 0
    (map (fun r => Float64.units (Float64.Account.balance r)) rows')
  = fold_right Z.add 0
      (map (fun r => Float64.units (Float64.Account.balance r)) rows)
    + match find (Float64.has_number n) rows with
      | Some r =>
          match Float64.stored (f (Float64.Account.balance r)) with
          | Some b => Float64.units b - Float64.units (Float64.Account.balance r)
          | None => 0
          end
      | None => 0
      end.
Proof.
  revert rows'. induction rows as [|r rows IH]; simpl; intros rows' Hnd.
  - intros [= <-]. simpl. lia.
  - inversion Hnd as [|? ? Hnotin Hnd']; subst.
    destruct (Float64.has_number n r) eqn:Hn.
    + destruct (Float64.stored (f (Float64.Account.balance r))) as [b|];
        [|discriminate].
      destruct (Float64.update_rows f n rows) as [rest|] eqn:Hrest;
        [|discriminate].
      intros [= <-]. simpl. rewrite (IH rest Hnd' eq_refl).
      apply f64_has_number_iff in Hn. subst n.
      rewrite (f64_find_absent _ _ Hnotin). lia.
    + destruct (Float64.update_rows f n rows) as [rest|] eqn:Hrest;
        [|discriminate].
      intros [= <-]. simpl. rewrite (IH rest Hnd' eq_refl). lia.
Qed.

Lemma f64_update_balance_inv (f : float -> float) (n : string)
    (db db1 : Float64.Database) :
  Float64.update_balance f n db = Some db1 ->
  Float64.account_numbers db1 = Float64.account_numbers db
  /\ Float64.transactions db1 = Float64.transactions db
  /\ (forall m,
        Float64.select_balance db1 m
        = match Float64.select_balance db m with
          | None => None
          | Some b => if String.eqb m n then Float64.stored (f b) else Some b
          end)
  /\ (Float64.unique_numbers db ->
      Float64.exact_total db1
      = Float64.exact_total db
        + match Float64.select_balance db n with
          | Some b =>
              match Float64.stored (f b) with
              | Some b' => Float64.units b' - Float64.units b
              | None => 0
              end
          | None => 0
          end).
Proof.
  unfold Float64.update_balance.
  destruct (Float64.update_rows f n (Float64.accounts db)) as [rows'|]
    eqn:Hrows; [|discriminate].
  intros [= <-].
  unfold Float64.account_numbers, Float64.select_balance,
    Float64.exact_total, Float64.unique_numbers, Float64.account_numbers.
  simpl. split; [now apply (f64_update_rows_numbers f n)|].
  split; [reflexivity|].
  split; [intros m; now apply f64_update_rows_select|].
  intros Hu. rewrite (f64_update_rows_total f n _ _ Hu Hrows).
  now destruct (find (Float64.has_number n) (Float64.accounts db)).
Qed.

Lemma f64_insert_inv (now : Z) (fa ta : option string) (ty : string)
    (a : float) (d : option string) (db db2 : Float64.Database) :
  Float64.insert_transaction now fa ta ty a d db = Some db2 ->
  exists kept : float,
    Float64.stored a = Some kept
    /\ Float64.accounts db2 = Float64.accounts db
    /\ Float64.transactions db2
       = (Float64.transactions db ++
            [Float64.Transaction.mk (next_id (Float64.transactions db))
               fa ta ty kept d now])%list.
Proof.
  unfold Float64.insert_transaction.
  destruct (Float64.stored a) as [kept|]; [|discriminate].
  intros [= <-]. eauto.
Qed.

(** ** What the methods return and leave *)

Lemma f64_select_same_accounts (db db' : Float64.Database) (m : string) :
  Float64.accounts db' = Float64.accounts db ->
  Float64.select_balance db' m = Float64.select_balance db m.
Proof. unfold Float64.select_balance. now intros ->. Qed.

Lemma f64_create_account_false (db : Float64.Database) (now : Z)
    (n h : string) (b : float) :
  fst (Float64.BankSystem.create_account db now n h b) = false ->
  snd (Float64.BankSystem.create_account db now n h b) = db.
Proof.
  unfold Float64.BankSystem.create_account.
  destruct (existsb _ _); [reflexivity|].
  now destruct (Float64.stored b).
Qed.

Lemma f64_deposit_false (db : Float64.Database) (now : Z) (n : string)
    (a : float) (d : option string) :
  fst (Float64.BankSystem.deposit db now n a d) = false ->
  snd (Float64.BankSystem.deposit db now n a d) = db.
Proof.
  unfold Float64.BankSystem.deposit.
  destruct (Float64.select_balance db n); [|reflexivity]. cbv zeta.
  destruct (Float64.update_balance _ _ _) as [db1|]; [|reflexivity].
  now destruct (Float64.insert_transaction _ _ _ _ _ _ _).
Qed.

Lemma f64_withdraw_false (db : Float64.Database) (now : Z) (n : string)
    (a : float) (d : option string) :
  fst (Float64.BankSystem.withdraw db now n a d) = false ->
  snd (Float64.BankSystem.withdraw db now n a d) = db.
Proof.
  unfold Float64.BankSystem.withdraw.
  destruct (Float64.select_balance db n) as [cur|]; [|reflexivity].
  destruct (cur <? a)%float; [reflexivity|]. cbv zeta.
  destruct (Float64.update_balance _ _ _) as [db1|]; [|reflexivity].
  now destruct (Float64.insert_transaction _ _ _ _ _ _ _).
Qed.

Lemma f64_transfer_false (db : Float64.Database) (now : Z) (f t : string)
    (a : float) (d : option string) :
  fst (Float64.BankSystem.transfer db now f t a d) = false ->
  snd (Float64.BankSystem.transfer db now f t a d) = db.
Proof.
  unfold Float64.BankSystem.transfer. cbv zeta.
  destruct (negb _); [reflexivity|].
  destruct (Float64.dict_get _ _) as [fb|]; [|reflexivity].
  destruct (fb <? a)%float; [reflexivity|].
  destruct (Float64.update_balance _ f db) as [db1|]; [|reflexivity].
  destruct (Float64.update_balance _ t db1) as [db2|]; [|reflexivity].
  now destruct (Float64.insert_transaction _ _ _ _ _ _ _).
Qed.

(** A deposit that returned [True]. *)
Lemma f64_deposit_true (db db' : Float64.Database) (now : Z) (n : string)
    (a : float) (d : option string) :
  Float64.BankSystem.deposit db now n a d = (true, db') ->
  exists current kept : float,
    Float64.select_balance db n = Some current
    /\ Float64.stored a = Some kept
    /\ Float64.account_numbers db' = Float64.account_numbers db
    /\ (forall m,
          Float64.select_balance db' m
          = match Float64.select_balance db m with
            | None => None
            | Some b =>
                if String.eqb m n then Float64.stored (current + a)%float
                else Some b
            end)
    /\ Float64.transactions db'
       = (Float64.transactions db ++
            [Float64.Transaction.mk (next_id (Float64.transactions db))
               None (Some n) "DEPOSIT" kept d now])%list.
Proof.
  unfold Float64.BankSystem.deposit.
  destruct (Float64.select_balance db n) as [cur|] eqn:Hsel; [|discriminate].
  cbv zeta.
  destruct (Float64.update_balance _ _ _) as [db1|] eqn:Hup; [|discriminate].
  destruct (Float64.insert_transaction _ _ _ _ _ _ _) as [db2|] eqn:Hins;
    [|discriminate].
  intros [= <-].
  apply f64_update_balance_inv in Hup as (Hnum & Hlog & Hbal & _).
  apply f64_insert_inv in Hins as (kept & Hkept & Hacc & Hrows).
  exists cur, kept. split; [reflexivity|]. split; [exact Hkept|].
  split; [unfold Float64.account_numbers in *; now rewrite Hacc|].
  split.
  - intros m. now rewrite (f64_select_same_accounts _ _ _ Hacc), Hbal.
  - now rewrite Hrows, Hlog.
Qed.

(** A withdrawal that returned [True]. *)
Lemma f64_withdraw_true (db db' : Float64.Database) (now : Z) (n : string)
    (a : float) (d : option string) :
  Float64.BankSystem.withdraw db now n a d = (true, db') ->
  exists current kept : float,
    Float64.select_balance db n = Some current
    /\ (current <? a)%float = false
    /\ Float64.stored a = Some kept
    /\ Float64.account_numbers db' = Float64.account_numbers db
    /\ (forall m,
          Float64.select_balance db' m
          = match Float64.select_balance db m with
            | None => None
            | Some b =>
                if String.eqb m n then Float64.stored (current - a)%float
                else Some b
            end)
    /\ Float64.transactions db'
       = (Float64.transactions db ++
            [Float64.Transaction.mk (next_id (Float64.transactions db))
               (Some n) None "WITHDRAWAL" kept d now])%list.
Proof.
  unfold Float64.BankSystem.withdraw.
  destruct (Float64.select_balance db n) as [cur|] eqn:Hsel; [|discriminate].
  destruct (cur <? a)%float eqn:Hlt; [discriminate|]. cbv zeta.
  destruct (Float64.update_balance _ _ _) as [db1|] eqn:Hup; [|discriminate].
  destruct (Float64.insert_transaction _ _ _ _ _ _ _) as [db2|] eqn:Hins;
    [|discriminate].
  intros [= <-].
  apply f64_update_balance_inv in Hup as (Hnum & Hlog & Hbal & _).
  apply f64_insert_inv in Hins as (kept & Hkept & Hacc & Hrows).
  exists cur, kept. split; [reflexivity|]. split; [exact Hlt|].
  split; [exact Hkept|].
  split; [unfold Float64.account_numbers in *; now rewrite Hacc|].
  split.
  - intros m. now rewrite (f64_select_same_accounts _ _ _ Hacc), Hbal.
  - now rewrite Hrows, Hlog.
Qed.

Lemma f64_transfer_selects_two (db : Float64.Database) (f t : string) :
  Float64.unique_numbers db ->
  (List.length
     (filter (fun r => Float64.has_number f r || Float64.has_number t r)
        (Float64.accounts db))
   =? 2)%nat
  = match Float64.select_balance db f, Float64.select_balance db t with
    | Some _, Some _ => negb (String.eqb f t)
    | _, _ => false
    end.
Proof.
  unfold Float64.unique_numbers, Float64.account_numbers,
    Float64.select_balance. intros Hnd.
  destruct (String.eqb f t) eqn:Heq.
  - apply String.eqb_eq in Heq. subst t.
    rewrite (filter_ext _ (Float64.has_number f))
      by (intros r; now destruct (Float64.has_number f r)).
    rewrite (f64_filter_unique _ _ Hnd).
    now destruct (find (Float64.has_number f) (Float64.accounts db)).
  - rewrite filter_or_length.
    + rewrite !(f64_filter_unique _ _ Hnd).
      now destruct (find (Float64.has_number f) (Float64.accounts db)),
                   (find (Float64.has_number t) (Float64.accounts db)).
    + intros r Hf Ht. apply f64_has_number_iff in Hf, Ht.
      apply String.eqb_neq in Heq. congruence.
Qed.

Lemma f64_transfer_reads_balance (db : Float64.Database) (f t : string) :
  Float64.unique_numbers db ->
  Float64.dict_get f
    (map (fun acc => (Float64.Account.account_number acc,
                      Float64.Account.balance acc))
       (filter (fun r => Float64.has_number f r || Float64.has_number t r)
          (Float64.accounts db)))
  = Float64.select_balance db f.
Proof.
  unfold Float64.unique_numbers, Float64.account_numbers, Float64.dict_get,
    Float64.select_balance.
  intros Hnd.
  rewrite <- map_rev, find_map_pre. simpl.
  change (fun x : Float64.Account.t =>
            String.eqb (Float64.Account.account_number x) f)
    with (Float64.has_number f).
  rewrite f64_find_rev by now apply f64_NoDup_filter.
  rewrite find_filter_implied by (intros r ->; reflexivity).
  now destruct (find (Float64.has_number f) (Float64.accounts db)).
Qed.

(** A transfer that returned [True], with unique account numbers. *)
Lemma f64_transfer_true (db db' : Float64.Database) (now : Z) (f t : string)
    (a : float) (d : option string) :
  Float64.unique_numbers db ->
  Float64.BankSystem.transfer db now f t a d = (true, db') ->
  f <> t
  /\ exists from_balance to_balance new_from new_to kept : float,
       Float64.select_balance db f = Some from_balance
       /\ Float64.select_balance db t = Some to_balance
       /\ (from_balance <? a)%float = false
       /\ Float64.stored (from_balance - a)%float = Some new_from
       /\ Float64.stored (to_balance + a)%float = Some new_to
       /\ Float64.stored a = Some kept
       /\ Float64.account_numbers db' = Float64.account_numbers db
       /\ (forall m,
             Float64.select_balance db' m
             = match Float64.select_balance db m with
               | None => None
               | Some b =>
                   if String.eqb m f then Some new_from
                   else if String.eqb m t then Some new_to
                   else Some b
               end)
       /\ Float64.transactions db'
          = (Float64.transactions db ++
               [Float64.Transaction.mk (next_id (Float64.transactions db))
                  (Some f) (Some t) "TRANSFER" kept d now])%list
       /\ Float64.exact_total db'
          = Float64.exact_total db
            + (Float64.units new_from - Float64.units from_balance)
            + (Float64.units new_to - Float64.units to_balance).
Proof.
  intros Hu. unfold Float64.BankSystem.transfer. cbv zeta.
  rewrite (f64_transfer_selects_two _ _ _ Hu),
    (f64_transfer_reads_balance _ _ _ Hu).
  destruct (Float64.select_balance db f) as [fb|] eqn:Hf; [|discriminate].
  destruct (Float64.select_balance db t) as [tb|] eqn:Ht; [|discriminate].
  destruct (String.eqb f t) eqn:Heq; simpl; [discriminate|].
  destruct (fb <? a)%float eqn:Hlt; [discriminate|].
  destruct (Float64.update_balance _ f db) as [db1|] eqn:Hup1;
    [|discriminate].
  destruct (Float64.update_balance _ t db1) as [db2|] eqn:Hup2;
    [|discriminate].
  destruct (Float64.insert_transaction _ _ _ _ _ _ _) as [db3|] eqn:Hins;
    [|discriminate].
  intros [= <-].
  assert (Htf : String.eqb t f = false)
    by (rewrite String.eqb_sym; exact Heq).
  apply String.eqb_neq in Heq as Hneq.
  apply f64_update_balance_inv in Hup1 as (Hnum1 & Hlog1 & Hbal1 & Htot1).
  assert (Hu1 : Float64.unique_numbers db1)
    by (unfold Float64.unique_numbers; now rewrite Hnum1).
  apply f64_update_balance_inv in Hup2 as (Hnum2 & Hlog2 & Hbal2 & Htot2).
  apply f64_insert_inv in Hins as (kept & Hkept & Hacc & Hrows).
  specialize (Htot1 Hu). specialize (Htot2 Hu1).
  pose proof (Hbal1 f) as Hf1. rewrite Hf, String.eqb_refl in Hf1.
  pose proof (Hbal1 t) as Ht1. rewrite Ht, Htf in Ht1.
  pose proof (Hbal2 t) as Ht2. rewrite Ht1, String.eqb_refl in Ht2.
  pose proof (Hbal2 f) as Hf2. rewrite Hf1 in Hf2.
  rewrite Hf in Htot1. rewrite Ht1 in Htot2.
  destruct (Float64.stored (fb - a)%float) as [new_from|] eqn:Hnf.
  2:{ exfalso.
      assert (Hin : In f (Float64.account_numbers db1))
        by (rewrite Hnum1; eapply f64_select_names; eauto).
      apply f64_select_absent in Hf1. contradiction. }
  destruct (Float64.stored (tb + a)%float) as [new_to|] eqn:Hnt.
  2:{ exfalso.
      assert (Hin : In t (Float64.account_numbers db2))
        by (rewrite Hnum2, Hnum1; eapply f64_select_names; eauto).
      apply f64_select_absent in Ht2. contradiction. }
  rewrite Heq in Hf2.
  split; [exact Hneq|].
  exists fb, tb, new_from, new_to, kept.
  repeat split; try assumption; try reflexivity.
  - unfold Float64.account_numbers in *. now rewrite Hacc, Hnum2, Hnum1.
  - intros m. rewrite (f64_select_same_accounts _ _ _ Hacc), Hbal2, Hbal1.
    destruct (Float64.select_balance db m) as [b|] eqn:Hm; [|reflexivity].
    destruct (String.eqb m f) eqn:Hmf.
    + apply String.eqb_eq in Hmf. subst m.
      rewrite Hf in Hm. injection Hm as <-. rewrite Hnf, Heq. reflexivity.
    + destruct (String.eqb m t) eqn:Hmt; [|reflexivity].
      apply String.eqb_eq in Hmt. subst m.
      rewrite Ht in Hm. injection Hm as <-. exact Hnt.
  - now rewrite Hrows, Hlog2, Hlog1.
  - unfold Float64.exact_total in *. rewrite Hacc. lia.
Qed.

Lemma f64_get_account_some (db : Float64.Database) (n : string) (b : float) :
  Float64.select_balance db n = Some b ->
  exists account,
    Float64.BankSystem.get_account db n = Some account
    /\ Float64.balance_column account = b.
Proof.
  rewrite <- f64_get_account_balance.
  destruct (Float64.BankSystem.get_account db n) as [account|];
    [|discriminate].
  simpl. intros [= <-]. eauto.
Qed.


Lemma f64_unique_fixture : Float64.unique_numbers Float64.fixture.
Proof.
  unfold Float64.unique_numbers. vm_compute.
  repeat constructor; simpl; intuition discriminate.
Qed.

(** * Properties of the specification, on binary64 amounts *)

Lemma f64_same_tables (db db' : Float64.Database) :
  db' = db ->
  Float64.accounts db' = Float64.accounts db
  /\ Float64.transactions db' = Float64.transactions db.
Proof. now intros ->. Qed.

(** The third withdrawal of 0.10 from an account opened with 0.30 is
    refused: after two of them the balance is 0.09999999999999998, which
    is below 0.1. *)
Example scenario_three_withdrawals_on_doubles :
  let opened :=
    snd (Float64.BankSystem.create_account Float64.empty_database 0 "ACC003"
           "Ada Lovelace" 0x1.3333333333333p-2) in
  let first :=
    Float64.BankSystem.withdraw opened 1 "ACC003" 0x1.999999999999ap-4 None in
  let second :=
    Float64.BankSystem.withdraw (snd first) 2 "ACC003" 0x1.999999999999ap-4
      None in
  let third :=
    Float64.BankSystem.withdraw (snd second) 3 "ACC003" 0x1.999999999999ap-4
      None in
  (fst first, fst second, fst third) = (true, true, false)
  /\ Float64.select_balance (snd third) "ACC003"
     = Some 0x1.9999999999998p-4%float.
Proof. split; vm_compute; reflexivity. Qed.

(** C2, as stated, fails on doubles.  ACC001 holds 1e16 and ACC002 holds
    5.00; the transfer of 1.00 from ACC001 to ACC002 returns [True],
    ACC002 then holds 6.00 and ACC001 still holds 1e16, because
    1e16 - 1.0 is rounded back to 1e16: nothing was debited, 1.00 was
    credited, and the exact sum of the balances has changed. *)
Lemma transfer_creates_money :
  fst (Float64.BankSystem.transfer Float64.wealthy 1 "ACC001" "ACC002" 1
         (Some "Transfer")) = true
  /\ Float64.select_balance Float64.wealthy "ACC001" = Some 1e16%float
  /\ Float64.select_balance
       (snd (Float64.BankSystem.transfer Float64.wealthy 1 "ACC001" "ACC002" 1
               (Some "Transfer"))) "ACC001" = Some 1e16%float
  /\ Float64.select_balance Float64.wealthy "ACC002" = Some 5%float
  /\ Float64.select_balance
       (snd (Float64.BankSystem.transfer Float64.wealthy 1 "ACC001" "ACC002" 1
               (Some "Transfer"))) "ACC002" = Some 6%float
  /\ Float64.exact_total
       (snd (Float64.BankSystem.transfer Float64.wealthy 1 "ACC001" "ACC002" 1
               (Some "Transfer")))
     <> Float64.exact_total Float64.wealthy.
Proof.
  repeat split; try (vm_compute; reflexivity).
  intros Heq. vm_compute in Heq. discriminate.
Qed.

(** C2, amended - Transfers on doubles.  With unique account numbers, no
    sequence of transfers changes the set of accounts, and a transfer that
    returns [False] has changed neither table.  A transfer that returns [True] sets
    the balance of [from_account] to the double [from_balance - amount]
    and that of [to_account] to the double [to_balance + amount], and
    leaves every other balance alone; the exact sum of all balances
    changes by the two rounding errors, and is unchanged when both results
    are exact. *)
Theorem transfers_on_doubles :
  (forall (calls : list (Z * Float64.Call)) (db : Float64.Database),
      Float64.unique_numbers db ->
      Forall (fun c => exists f t a d, snd c = Float64.Transfer f t a d)
             calls ->
      Float64.account_numbers (Float64.run db calls)
      = Float64.account_numbers db)
  /\ (forall (db : Float64.Database) (now : Z) (f t : string) (a : float)
             (d : option string),
        fst (Float64.BankSystem.transfer db now f t a d) = false ->
        Float64.accounts (snd (Float64.BankSystem.transfer db now f t a d))
        = Float64.accounts db
        /\ Float64.transactions
             (snd (Float64.BankSystem.transfer db now f t a d))
           = Float64.transactions db)
  /\ (forall (db db' : Float64.Database) (now : Z) (f t : string) (a : float)
             (d : option string),
        Float64.unique_numbers db ->
        Float64.BankSystem.transfer db now f t a d = (true, db') ->
        exists from_balance to_balance new_from new_to : float,
          Float64.select_balance db f = Some from_balance
          /\ Float64.select_balance db t = Some to_balance
          /\ Float64.stored (from_balance - a)%float = Some new_from
          /\ Float64.stored (to_balance + a)%float = Some new_to
          /\ Float64.select_balance db' f = Some new_from
          /\ Float64.select_balance db' t = Some new_to
          /\ (forall other, other <> f -> other <> t ->
                Float64.select_balance db' other
                = Float64.select_balance db other)
          /\ Float64.exact_total db'
             = Float64.exact_total db
               + (Float64.units new_from - Float64.units from_balance)
               + (Float64.units new_to - Float64.units to_balance)
          /\ (Float64.units new_from
              = Float64.units from_balance - Float64.units a ->
              Float64.units new_to
              = Float64.units to_balance + Float64.units a ->
              Float64.exact_total db' = Float64.exact_total db)).
Proof.
  split; [|split].
  2:{ intros db now f t a d Hfalse.
      apply f64_same_tables, f64_transfer_false, Hfalse. }
  - induction calls as [|[now c] calls IH]; simpl; intros db Hu Hall;
      [reflexivity|].
    inversion Hall as [|? ? (f & t & a & d & Hc) Hall']; subst.
    simpl in Hc. subst c. simpl.
    assert (Hnum : Float64.account_numbers
                     (snd (Float64.BankSystem.transfer db now f t a d))
                   = Float64.account_numbers db).
    { destruct (Float64.BankSystem.transfer db now f t a d) as [[|] db']
        eqn:Htr.
      - destruct (f64_transfer_true _ _ _ _ _ _ _ Hu Htr)
          as (_ & fb & tb & nf & nt & k & _ & _ & _ & _ & _ & _ & Hn & _).
        exact Hn.
      - pose proof (f64_transfer_false db now f t a d) as Hfalse.
        rewrite Htr in Hfalse. simpl in Hfalse. simpl.
        now rewrite Hfalse. }
    rewrite IH, Hnum; [reflexivity | | exact Hall'].
    unfold Float64.unique_numbers. now rewrite Hnum.
  - intros db db' now f t a d Hu Htr.
    destruct (f64_transfer_true _ _ _ _ _ _ _ Hu Htr)
      as (Hneq & fb & tb & nf & nt & k & Hf & Ht & _ & Hnf & Hnt & _ & _
          & Hbal & _ & Htot).
    exists fb, tb, nf, nt.
    split; [exact Hf|]. split; [exact Ht|].
    split; [exact Hnf|]. split; [exact Hnt|].
    split; [now rewrite Hbal, Hf, String.eqb_refl|].
    split.
    { rewrite Hbal, Ht, String.eqb_refl.
      assert (String.eqb t f = false) as ->
          by (apply String.eqb_neq; congruence).
      reflexivity. }
    split.
    { intros other Hof Hot. rewrite Hbal.
      apply String.eqb_neq in Hof, Hot. rewrite Hof, Hot.
      now destruct (Float64.select_balance db other). }
    split; [exact Htot|].
    intros Hx Hy. rewrite Htot. lia.
Qed.

Lemma transfers_on_doubles_witness :
  Float64.account_numbers
    (Float64.run Float64.fixture
       [ (1, Float64.Transfer "ACC001" "ACC002" 100 (Some "Transfer"))
       ; (2, Float64.Transfer "ACC002" "ACC001" 50 (Some "Transfer"))
       ; (3, Float64.Transfer "ACC001" "ACC002" 75 (Some "Transfer")) ])
  = Float64.account_numbers Float64.fixture
  /\ Float64.exact_total
       (snd (Float64.BankSystem.transfer Float64.fixture 1 "ACC001" "ACC002"
               300 (Some "Test transfer")))
     = Float64.exact_total Float64.fixture.
Proof.
  destruct transfers_on_doubles as (Hseq & _ & Hone).
  split.
  - apply Hseq; [apply f64_unique_fixture|].
    repeat constructor; simpl; eauto.
  - destruct (Hone Float64.fixture
                (snd (Float64.BankSystem.transfer Float64.fixture 1 "ACC001"
                        "ACC002" 300 (Some "Test transfer")))
                1 "ACC001" "ACC002" 300%float (Some "Test transfer"))
      as (fb & tb & nf & nt & Hf & Ht & Hnf & Hnt & _ & _ & _ & _ & Hexact).
    + apply f64_unique_fixture.
    + vm_compute. reflexivity.
    + vm_compute in Hf, Ht. injection Hf as <-. injection Ht as <-.
      vm_compute in Hnf, Hnt. injection Hnf as <-. injection Hnt as <-.
      apply Hexact; vm_compute; reflexivity.
Defined.

(** C4, as stated, fails on doubles.  The transfer of 1.00 from ACC002
    (5.00) to ACC001 (1e16) returns [True] and ACC002 is debited to 4.00,
    but ACC001 still holds 1e16, because 1e16 + 1.0 is rounded back to
    1e16: the amount debited was not credited, and the endpoint reports
    the unchanged 1e16 as the new balance of the destination. *)
Lemma transfer_loses_credit :
  fst (Float64.BankSystem.transfer Float64.wealthy 1 "ACC002" "ACC001" 1
         (Some "Transfer")) = true
  /\ Float64.select_balance Float64.wealthy "ACC001" = Some 1e16%float
  /\ Float64.select_balance
       (snd (Float64.BankSystem.transfer Float64.wealthy 1 "ACC002" "ACC001" 1
               (Some "Transfer"))) "ACC001" = Some 1e16%float
  /\ Float64.select_balance
       (snd (Float64.BankSystem.transfer Float64.wealthy 1 "ACC002" "ACC001" 1
               (Some "Transfer"))) "ACC002" = Some 4%float
  /\ fst (Float64.transfer Float64.wealthy 1
            (Float64.TransferRequest.mk "ACC002" "ACC001" 1 (Some "Transfer")))
     = Float64.Transferred 1 "ACC002" "ACC001" 4 1e16
  /\ option_map Float64.units
       (Float64.select_balance
          (snd (Float64.BankSystem.transfer Float64.wealthy 1 "ACC002"
                  "ACC001" 1 (Some "Transfer"))) "ACC001")
     <> option_map (fun b => Float64.units b + Float64.units 1)
          (Float64.select_balance Float64.wealthy "ACC001").
Proof.
  repeat split; try (vm_compute; reflexivity).
  intros Heq. vm_compute in Heq. discriminate.
Qed.

(** C4, amended - Successful transfer on doubles.  With unique account
    numbers, a transfer that returns [True] has set the balance of
    [from_account] to the double [from_balance - amount] and that of
    [to_account] to the double [to_balance + amount], and has appended
    exactly one row to the log: a TRANSFER of the amount whose
    [from_account] and [to_account] are both set, to the two arguments,
    which differ.  The endpoint answers with these two new balances. *)
Theorem successful_transfer_on_doubles :
  forall (db db' : Float64.Database) (now : Z) (f t : string) (a : float)
         (d : option string),
    Float64.unique_numbers db ->
    Float64.BankSystem.transfer db now f t a d = (true, db') ->
    exists (from_balance to_balance new_from new_to : float)
           (record : Float64.Transaction.t),
      Float64.select_balance db f = Some from_balance
      /\ Float64.select_balance db t = Some to_balance
      /\ Float64.stored (from_balance - a)%float = Some new_from
      /\ Float64.stored (to_balance + a)%float = Some new_to
      /\ Float64.select_balance db' f = Some new_from
      /\ Float64.select_balance db' t = Some new_to
      /\ Float64.transactions db'
         = (Float64.transactions db ++ [record])%list
      /\ Float64.Transaction.transaction_type record = "TRANSFER"
      /\ Float64.stored a = Some (Float64.Transaction.amount record)
      /\ Float64.Transaction.from_account record = Some f
      /\ Float64.Transaction.to_account record = Some t
      /\ f <> t
      /\ ((0 <? a)%float = true ->
          Float64.transfer db now (Float64.TransferRequest.mk f t a d)
          = (Float64.Transferred a f t new_from new_to, db')).
Proof.
  intros db db' now f t a d Hu Htr.
  destruct (f64_transfer_true _ _ _ _ _ _ _ Hu Htr)
    as (Hneq & fb & tb & nf & nt & k & Hf & Ht & _ & Hnf & Hnt & Hk & _
        & Hbal & Hlog & _).
  assert (Hf' : Float64.select_balance db' f = Some nf)
    by now rewrite Hbal, Hf, String.eqb_refl.
  assert (Ht' : Float64.select_balance db' t = Some nt).
  { rewrite Hbal, Ht, String.eqb_refl.
    assert (String.eqb t f = false) as ->
        by (apply String.eqb_neq; congruence).
    reflexivity. }
  exists fb, tb, nf, nt,
    (Float64.Transaction.mk (next_id (Float64.transactions db)) (Some f)
       (Some t) "TRANSFER" k d now).
  repeat split; try assumption.
  intros Hv. unfold Float64.transfer, Float64.TransferRequest.valid. simpl.
  rewrite Hv. simpl.
  apply String.eqb_neq in Hneq. rewrite Hneq.
  destruct (f64_get_account_some _ _ _ Hf) as (fa & -> & _).
  destruct (f64_get_account_some _ _ _ Ht) as (ta & -> & _).
  rewrite Htr.
  destruct (f64_get_account_some _ _ _ Hf') as (uf & -> & ->).
  now destruct (f64_get_account_some _ _ _ Ht') as (ut & -> & ->).
Qed.

Lemma successful_transfer_on_doubles_witness :
  Float64.transfer Float64.fixture 1
    (Float64.TransferRequest.mk "ACC001" "ACC002" 300 (Some "Test transfer"))
  = (Float64.Transferred 300 "ACC001" "ACC002" 700 800,
     snd (Float64.BankSystem.transfer Float64.fixture 1 "ACC001" "ACC002" 300
            (Some "Test transfer"))).
Proof.
  destruct (successful_transfer_on_doubles Float64.fixture
              (snd (Float64.BankSystem.transfer Float64.fixture 1 "ACC001"
                      "ACC002" 300 (Some "Test transfer")))
              1 "ACC001" "ACC002" 300%float (Some "Test transfer"))
    as (fb & tb & nf & nt & record & Hf & Ht & Hnf & Hnt & _ & _ & _ & _ & _
        & _ & _ & _ & Hend).
  - apply f64_unique_fixture.
  - vm_compute. reflexivity.
  - vm_compute in Hf, Ht. injection Hf as <-. injection Ht as <-.
    vm_compute in Hnf, Hnt. injection Hnf as <-. injection Hnt as <-.
    apply Hend. vm_compute. reflexivity.
Defined.










(** ** ORDER BY and LIMIT on the binary64 tables *)

Lemma f64_insert_desc_perm (t : Float64.Transaction.t)
    (l : list Float64.Transaction.t) :
  Permutation (Float64.BankSystem.insert_desc t l) (t :: l).
Proof.
  induction l as [|u l IH]; simpl; [reflexivity|].
  destruct (Float64.Transaction.timestamp u <=? Float64.Transaction.timestamp t);
    [reflexivity|].
  rewrite IH. apply perm_swap.
Qed.

Lemma f64_order_by_perm (rows : list Float64.Transaction.t) :
  Permutation (Float64.BankSystem.order_by_timestamp_desc rows) rows.
Proof.
  induction rows as [|t rows IH]; simpl; [reflexivity|].
  unfold Float64.BankSystem.order_by_timestamp_desc in *. simpl.
  rewrite f64_insert_desc_perm. now constructor.
Qed.

Lemma f64_insert_desc_sorted (t : Float64.Transaction.t)
    (l : list Float64.Transaction.t) :
  StronglySorted Float64.newer_first l ->
  StronglySorted Float64.newer_first (Float64.BankSystem.insert_desc t l).
Proof.
  induction 1 as [|u l Hsorted IH Hall]; simpl.
  - repeat constructor.
  - destruct (Float64.Transaction.timestamp u
              <=? Float64.Transaction.timestamp t) eqn:Hle.
    + apply Z.leb_le in Hle.
      constructor; [now constructor|].
      constructor; [exact Hle|].
      eapply Forall_impl; [|exact Hall].
      unfold Float64.newer_first. intros v Hv. lia.
    + apply Z.leb_gt in Hle.
      constructor; [exact IH|].
      apply Forall_forall. intros v Hv.
      apply (Permutation_in _ (f64_insert_desc_perm t l)) in Hv.
      destruct Hv as [<-|Hv].
      * unfold Float64.newer_first. lia.
      * rewrite Forall_forall in Hall. auto.
Qed.

Lemma f64_order_by_sorted (rows : list Float64.Transaction.t) :
  StronglySorted Float64.newer_first
    (Float64.BankSystem.order_by_timestamp_desc rows).
Proof.
  induction rows as [|t rows IH]; simpl; [constructor|].
  now apply f64_insert_desc_sorted.
Qed.

Lemma f64_involves_iff (n : string) (t : Float64.Transaction.t) :
  Float64.BankSystem.involves n t = true
  <-> Float64.Transaction.from_account t = Some n
      \/ Float64.Transaction.to_account t = Some n.
Proof.
  unfold Float64.BankSystem.involves, Float64.BankSystem.column_is.
  rewrite orb_true_iff.
  destruct (Float64.Transaction.from_account t) as [f|],
           (Float64.Transaction.to_account t) as [u|];
    rewrite ?String.eqb_eq; intuition congruence.
Qed.

(** ** Account numbers and references along a run *)

Lemma f64_references_grow (db db' : Float64.Database)
    (record : Float64.Transaction.t) :
  Float64.references_hold db ->
  Float64.account_numbers db' = Float64.account_numbers db ->
  Float64.transactions db' = (Float64.transactions db ++ [record])%list ->
  Float64.names_account db (Float64.Transaction.from_account record) ->
  Float64.names_account db (Float64.Transaction.to_account record) ->
  Float64.references_hold db'.
Proof.
  unfold Float64.references_hold, Float64.names_account.
  intros Hrefs Hnum Hlog Hf Ht. rewrite Hlog, Hnum.
  apply Forall_app. split; [exact Hrefs|].
  constructor; [now split | constructor].
Qed.

Lemma f64_call_keeps (db : Float64.Database) (now : Z) (c : Float64.Call) :
  Float64.unique_numbers db /\ Float64.references_hold db ->
  Float64.unique_numbers (snd (Float64.call db now c))
  /\ Float64.references_hold (snd (Float64.call db now c)).
Proof.
  intros [Hu Hr].
  destruct (Float64.call db now c) as [ok db'] eqn:Hcall.
  destruct ok.
  2:{ assert (Hsame : db' = db).
      { change db' with (snd (false, db')). rewrite <- Hcall.
        destruct c; simpl;
          [apply f64_create_account_false | apply f64_deposit_false
          | apply f64_withdraw_false | apply f64_transfer_false];
          simpl in Hcall; now rewrite Hcall. }
      simpl. rewrite Hsame. now split. }
  simpl. destruct c as [n h b|n a d|n a d|f t a d]; simpl in Hcall.
  - unfold Float64.BankSystem.create_account in Hcall.
    destruct (existsb (Float64.has_number n) (Float64.accounts db)) eqn:Hex;
      [discriminate|].
    destruct (Float64.stored b) as [kept|]; [|discriminate].
    injection Hcall as <-.
    assert (Hfresh : ~ In n (Float64.account_numbers db)).
    { intros Hin. unfold Float64.account_numbers in Hin.
      apply in_map_iff in Hin as (r & Hr' & Hin).
      assert (Ht : existsb (Float64.has_number n) (Float64.accounts db)
                   = true).
      { apply existsb_exists. exists r. split; [exact Hin|].
        now apply f64_has_number_iff. }
      congruence. }
    split.
    + unfold Float64.unique_numbers, Float64.account_numbers. simpl.
      rewrite map_app. simpl.
      apply NoDup_app; [exact Hu | repeat constructor; simpl; tauto|].
      intros x Hx [<-|[]]. contradiction.
    + unfold Float64.references_hold, Float64.account_numbers in *. simpl.
      eapply Forall_impl; [|exact Hr].
      intros t [Hf Ht]. unfold Float64.names_account,
        Float64.account_numbers in *. simpl.
      rewrite map_app.
      destruct (Float64.Transaction.from_account t),
               (Float64.Transaction.to_account t);
        split; try exact I; apply in_or_app; now left.
  - destruct (f64_deposit_true _ _ _ _ _ _ Hcall)
      as (cur & k & Hcur & _ & Hnum & _ & Hlog).
    split; [unfold Float64.unique_numbers; now rewrite Hnum|].
    eapply f64_references_grow; eauto; simpl; [exact I|].
    eapply f64_select_names; eauto.
  - destruct (f64_withdraw_true _ _ _ _ _ _ Hcall)
      as (cur & k & Hcur & _ & _ & Hnum & _ & Hlog).
    split; [unfold Float64.unique_numbers; now rewrite Hnum|].
    eapply f64_references_grow; eauto; simpl; [|exact I].
    eapply f64_select_names; eauto.
  - destruct (f64_transfer_true _ _ _ _ _ _ _ Hu Hcall)
      as (_ & fb & tb & nf & nt & k & Hfb & Htb & _ & _ & _ & _ & Hnum & _
          & Hlog & _).
    split; [unfold Float64.unique_numbers; now rewrite Hnum|].
    eapply f64_references_grow; eauto; simpl;
      eapply f64_select_names; eauto.
Qed.

Lemma f64_run_keeps (calls : list (Z * Float64.Call)) (db : Float64.Database) :
  Float64.unique_numbers db /\ Float64.references_hold db ->
  Float64.unique_numbers (Float64.run db calls)
  /\ Float64.references_hold (Float64.run db calls).
Proof.
  revert db. induction calls as [|[now c] calls IH]; intros db H; simpl;
    [exact H|].
  apply IH, f64_call_keeps, H.
Qed.

Lemma f64_unknown_account_has_no_rows (db : Float64.Database) (n : string) :
  Float64.references_hold db -> ~ In n (Float64.account_numbers db) ->
  filter (Float64.BankSystem.involves n) (Float64.transactions db) = [].
Proof.
  intros Hrefs Hn. unfold Float64.references_hold in Hrefs.
  induction Hrefs as [|t l [Hf Ht] _ IH]; simpl; [reflexivity|].
  destruct (Float64.BankSystem.involves n t) eqn:Hinv; [|exact IH].
  apply f64_involves_iff in Hinv as [Heq|Heq]; rewrite Heq in *;
    simpl in *; contradiction.
Qed.

(** C7, as stated, fails for some limits.  With the limit 2^63, which
    SQLite's 64-bit INTEGER cannot hold, [get_transaction_history] raises
    instead of returning a sequence, also for an account that has no
    transactions; with the limit -1 it returns all three transactions of
    ACC001, not [min limit total] of them. *)
Lemma history_limit_out_of_range :
  Float64.BankSystem.get_transaction_history Float64.busy "NONEXISTENT"
    (2 ^ 63) = None
  /\ Float64.BankSystem.get_transaction_history Float64.busy "ACC001"
       (2 ^ 63) = None
  /\ option_map (@List.length _)
       (Float64.BankSystem.get_transaction_history Float64.busy "ACC001" (-1))
     = Some 3%nat.
Proof. repeat split; vm_compute; reflexivity. Qed.

(** C7, amended - Transaction history.  The matching rows are exactly the
    transactions whose [from_account] or [to_account] is the account
    number.  For a limit from 0 to 2^63 - 1 the method returns, for the
    first [limit] rows of a rearrangement of the matching rows in which no
    row stands before a row with a later timestamp, the columns
    transaction_type, amount, from_account, to_account, description and
    timestamp of each, in that order: exactly [min limit total] rows.
    When nothing matches that is the empty list, and after any sequence of
    calls from the empty database nothing matches an account number that
    is not in [accounts].  A negative limit down to -2^63 returns all the
    matching rows; a limit outside the 64-bit range raises. *)
Theorem transaction_history_on_sqlite :
  forall (db : Float64.Database) (n : string) (limit : Z),
    let matching :=
      filter (Float64.BankSystem.involves n) (Float64.transactions db) in
    let result := Float64.BankSystem.get_transaction_history db n limit in
    let columns := fun t : Float64.Transaction.t =>
      (Float64.Transaction.transaction_type t, Float64.Transaction.amount t,
       Float64.Transaction.from_account t, Float64.Transaction.to_account t,
       Float64.Transaction.description t, Float64.Transaction.timestamp t) in
    (forall t, In t matching <->
               In t (Float64.transactions db)
               /\ (Float64.Transaction.from_account t = Some n
                   \/ Float64.Transaction.to_account t = Some n))
    /\ (0 <= limit < 2 ^ 63 ->
        exists ordered : list Float64.Transaction.t,
          Permutation ordered matching
          /\ StronglySorted Float64.newer_first ordered
          /\ result = Some (map columns (firstn (Z.to_nat limit) ordered))
          /\ List.length (firstn (Z.to_nat limit) ordered)
             = Nat.min (Z.to_nat limit) (List.length matching))
    /\ (0 <= limit < 2 ^ 63 -> matching = [] -> result = Some [])
    /\ (0 <= limit < 2 ^ 63 ->
        forall calls : list (Z * Float64.Call),
          db = Float64.run Float64.empty_database calls ->
          ~ In n (Float64.account_numbers db) ->
          result = Some [])
    /\ (- 2 ^ 63 <= limit < 0 ->
        exists ordered : list Float64.Transaction.t,
          Permutation ordered matching
          /\ StronglySorted Float64.newer_first ordered
          /\ result = Some (map columns ordered))
    /\ (limit < - 2 ^ 63 \/ 2 ^ 63 <= limit -> result = None).
Proof.
  intros db n limit matching result columns.
  assert (Hin : 0 <= limit < 2 ^ 63 ->
                result
                = Some (map columns
                          (firstn (Z.to_nat limit)
                             (Float64.BankSystem.order_by_timestamp_desc
                                matching)))).
  { intros Hl. unfold result, Float64.BankSystem.get_transaction_history,
      Float64.BankSystem.fits_int64, Float64.BankSystem.sql_limit.
    fold matching.
    replace (- 2 ^ 63 <=? limit) with true by (symmetry; apply Z.leb_le; lia).
    replace (limit <? 2 ^ 63) with true by (symmetry; apply Z.ltb_lt; lia).
    replace (limit <? 0) with false by (symmetry; apply Z.ltb_ge; lia).
    reflexivity. }
  assert (Hempty : 0 <= limit < 2 ^ 63 -> matching = [] -> result = Some []).
  { intros Hl Hm. rewrite (Hin Hl), Hm. simpl. now rewrite firstn_nil. }
  split; [|split; [|split; [|split; [|split]]]].
  - intros t. unfold matching. rewrite filter_In, f64_involves_iff. tauto.
  - intros Hl.
    exists (Float64.BankSystem.order_by_timestamp_desc matching).
    split; [apply f64_order_by_perm|].
    split; [apply f64_order_by_sorted|].
    split; [exact (Hin Hl)|].
    rewrite length_firstn.
    now rewrite (Permutation_length (f64_order_by_perm matching)).
  - exact Hempty.
  - intros Hl calls Hrun Hn. apply (Hempty Hl).
    apply f64_unknown_account_has_no_rows; [|exact Hn].
    rewrite Hrun. apply f64_run_keeps. split.
    + constructor.
    + constructor.
  - intros Hl.
    exists (Float64.BankSystem.order_by_timestamp_desc matching).
    split; [apply f64_order_by_perm|].
    split; [apply f64_order_by_sorted|].
    unfold result, Float64.BankSystem.get_transaction_history,
      Float64.BankSystem.fits_int64, Float64.BankSystem.sql_limit.
    fold matching.
    replace (- 2 ^ 63 <=? limit) with true by (symmetry; apply Z.leb_le; lia).
    replace (limit <? 2 ^ 63) with true by (symmetry; apply Z.ltb_lt; lia).
    replace (limit <? 0) with true by (symmetry; apply Z.ltb_lt; lia).
    reflexivity.
  - intros Hl.
    unfold result, Float64.BankSystem.get_transaction_history,
      Float64.BankSystem.fits_int64.
    destruct Hl as [Hl|Hl].
    + replace (- 2 ^ 63 <=? limit) with false
        by (symmetry; apply Z.leb_gt; lia).
      reflexivity.
    + replace (limit <? 2 ^ 63) with false
        by (symmetry; apply Z.ltb_ge; lia).
      now rewrite andb_false_r.
Qed.

Lemma transaction_history_on_sqlite_witness :
  (exists ordered : list Float64.Transaction.t,
     Permutation ordered
       (filter (Float64.BankSystem.involves "ACC001")
          (Float64.transactions Float64.busy))
     /\ Float64.BankSystem.get_transaction_history Float64.busy "ACC001" 2
        = Some
            (map (fun t =>
                    (Float64.Transaction.transaction_type t,
                     Float64.Transaction.amount t,
                     Float64.Transaction.from_account t,
                     Float64.Transaction.to_account t,
                     Float64.Transaction.description t,
                     Float64.Transaction.timestamp t))
               (firstn 2 ordered))
     /\ List.length (firstn 2 ordered) = 2%nat)
  /\ Float64.BankSystem.get_transaction_history Float64.busy "NONEXISTENT" 10
     = Some []
  /\ Float64.BankSystem.get_transaction_history Float64.busy "ACC001"
       (2 ^ 63 + 5) = None.
Proof.
  split; [|split].
  - destruct (transaction_history_on_sqlite Float64.busy "ACC001" 2)
      as (_ & Hlim & _).
    destruct (Hlim ltac:(lia)) as (ordered & Hperm & _ & Hres & Hlen).
    exists ordered. split; [exact Hperm|]. split; [exact Hres|exact Hlen].
  - destruct (transaction_history_on_sqlite Float64.busy "NONEXISTENT" 10)
      as (_ & _ & _ & Hunknown & _).
    apply (Hunknown ltac:(lia)
             [ (0, Float64.CreateAccount "ACC001" "John Doe" 1000)
             ; (0, Float64.CreateAccount "ACC002" "Jane Smith" 500)
             ; (5, Float64.Deposit "ACC001" 200 (Some "Test deposit"))
             ; (7, Float64.Withdraw "ACC001" 100 (Some "Test withdrawal"))
             ; (6, Float64.Transfer "ACC001" "ACC002" 150
                     (Some "Test transfer"))
             ; (8, Float64.Deposit "ACC002" 1 None) ]).
    + reflexivity.
    + vm_compute. intros [H|[H|[]]]; discriminate.
  - destruct (transaction_history_on_sqlite Float64.busy "ACC001"
                (2 ^ 63 + 5)) as (_ & _ & _ & _ & _ & Hout).
    apply Hout. right. lia.
Defined.

(** * Further properties of the code, on binary64 amounts *)

(** ** Creating accounts *)

Lemma f64_find_app_fresh (n : string) (rows : list Float64.Account.t)
    (r : Float64.Account.t) :
  find (Float64.has_number n) (rows ++ [r])
  = match find (Float64.has_number n) rows with
    | Some x => Some x
    | None => if Float64.has_number n r then Some r else None
    end.
Proof.
  induction rows as [|x rows IH]; simpl; [reflexivity|].
  now destruct (Float64.has_number n x).
Qed.

(** X1 - Whenever [create_account] returns [True], the number was not in
    [accounts] before and the balance was not NaN; [get_account] then
    returns the new row: the number, the holder, the balance as the
    column keeps it and the time of creation.  Every other account reads
    as before, the new number is the last of the account numbers, and the
    log is untouched. *)
Theorem create_account_on_doubles :
  forall (db db' : Float64.Database) (now : Z) (n h : string) (b : float),
    Float64.BankSystem.create_account db now n h b = (true, db') ->
    ~ In n (Float64.account_numbers db)
    /\ Float64.BankSystem.get_account db n = None
    /\ PrimFloat.is_nan b = false
    /\ (exists kept : float,
          Float64.stored b = Some kept
          /\ Float64.BankSystem.get_account db' n = Some (n, h, kept, now))
    /\ (forall m, m <> n ->
          Float64.BankSystem.get_account db' m
          = Float64.BankSystem.get_account db m)
    /\ Float64.account_numbers db' = (Float64.account_numbers db ++ [n])%list
    /\ Float64.transactions db' = Float64.transactions db.
Proof.
  intros db db' now n h b Hc.
  unfold Float64.BankSystem.create_account in Hc.
  destruct (existsb (Float64.has_number n) (Float64.accounts db)) eqn:Hex;
    [discriminate|].
  destruct (Float64.stored b) as [kept|] eqn:Hk; [|discriminate].
  injection Hc as <-.
  assert (Hfresh : ~ In n (Float64.account_numbers db)).
  { intros Hin. unfold Float64.account_numbers in Hin.
    apply in_map_iff in Hin as (r & Hr & Hin).
    assert (Ht : existsb (Float64.has_number n) (Float64.accounts db) = true).
    { apply existsb_exists. exists r. split; [exact Hin|].
      now apply f64_has_number_iff. }
    congruence. }
  assert (Hnone : find (Float64.has_number n) (Float64.accounts db) = None)
    by now apply f64_find_absent.
  split; [exact Hfresh|].
  split; [unfold Float64.BankSystem.get_account; now rewrite Hnone|].
  split.
  { unfold Float64.stored in Hk.
    now destruct (PrimFloat.is_nan b). }
  split.
  { exists kept. split; [reflexivity|].
    unfold Float64.BankSystem.get_account. simpl.
    rewrite f64_find_app_fresh, Hnone.
    unfold Float64.has_number at 1. simpl.
    now rewrite String.eqb_refl. }
  split.
  { intros m Hm. unfold Float64.BankSystem.get_account. simpl.
    rewrite f64_find_app_fresh.
    destruct (find (Float64.has_number m) (Float64.accounts db));
      [reflexivity|].
    unfold Float64.has_number. simpl.
    assert (String.eqb n m = false) as ->
        by (apply String.eqb_neq; congruence).
    reflexivity. }
  split; [|reflexivity].
  unfold Float64.account_numbers. simpl. now rewrite map_app.
Qed.

Lemma create_account_on_doubles_witness :
  ~ In "ACC003" (Float64.account_numbers Float64.fixture)
  /\ exists kept : float,
       Float64.stored 250 = Some kept
       /\ Float64.BankSystem.get_account
            (snd (Float64.BankSystem.create_account Float64.fixture 3
                    "ACC003" "Ada Lovelace" 250)) "ACC003"
          = Some ("ACC003", "Ada Lovelace", kept, 3).
Proof.
  destruct (create_account_on_doubles Float64.fixture
              (snd (Float64.BankSystem.create_account Float64.fixture 3
                      "ACC003" "Ada Lovelace" 250))
              3 "ACC003" "Ada Lovelace" 250%float)
    as (Hfresh & _ & _ & Hrow & _).
  - vm_compute. reflexivity.
  - split; [exact Hfresh | exact Hrow].
Defined.

(** X2 - Whenever [create_account] returns [False], neither table has
    changed, and either the number was already in [accounts] or the
    balance was NaN: the two refusals look the same to the caller.  Both
    occur: ACC001 cannot be created twice, and no account can be created
    with a NaN balance. *)
Theorem create_account_refusals :
  (forall (db : Float64.Database) (now : Z) (n h : string) (b : float),
      fst (Float64.BankSystem.create_account db now n h b) = false ->
      Float64.accounts (snd (Float64.BankSystem.create_account db now n h b))
      = Float64.accounts db
      /\ Float64.transactions
           (snd (Float64.BankSystem.create_account db now n h b))
         = Float64.transactions db
      /\ (In n (Float64.account_numbers db) \/ PrimFloat.is_nan b = true))
  /\ fst (Float64.BankSystem.create_account Float64.fixture 1 "ACC001"
            "Another Person" 500) = false
  /\ fst (Float64.BankSystem.create_account Float64.empty_database 1 "ACC001"
            "John Doe" nan) = false.
Proof.
  split; [|split; vm_compute; reflexivity].
  intros db now n h b Hfalse.
  rewrite (f64_create_account_false _ _ _ _ _ Hfalse).
  split; [reflexivity|]. split; [reflexivity|].
  unfold Float64.BankSystem.create_account in Hfalse.
  destruct (existsb (Float64.has_number n) (Float64.accounts db)) eqn:Hex.
  - left. apply existsb_exists in Hex as (r & Hin & Hr).
    apply f64_has_number_iff in Hr. subst n.
    unfold Float64.account_numbers. now apply in_map.
  - right. unfold Float64.stored in Hfalse.
    destruct (PrimFloat.is_nan b); [reflexivity|].
    destruct (PrimFloat.eqb b 0); discriminate.
Qed.

Lemma create_account_refusals_witness :
  In "ACC002" (Float64.account_numbers Float64.fixture)
  \/ PrimFloat.is_nan 75 = true.
Proof.
  destruct create_account_refusals as (Hrefused & _).
  apply (Hrefused Float64.fixture 4 "ACC002" "Jane Smith" 75%float).
  vm_compute. reflexivity.
Defined.

(** ** What the NOT NULL columns keep out *)





